(** * pg_timetable scheduler: chain execution engine

    A shallow embedding of [internal/scheduler/scheduler.go].

    The scheduler is glue around calls into the persistence layer
    ([pgengine]), the task backends and the Go runtime (timers, the
    cancellation context, channels).  None of those is part of the file, so
    every such call is an _event_ appended to a trace, and the answer the
    outside gives is read from a [World]: a record of oracles, each a function
    of the whole history so far.  An oracle may therefore answer differently
    every time it is asked, which is all the code can assume about a database
    or a clock.

    What the model leaves out:
    - goroutines are started ([EGo]) but not interleaved: each function is
      followed on its own, and a worker is fed the list of chains its
      channel delivers.  A send on the unbuffered channel is the event
      [ESend]; [retriveChainsAndRun] is the loop as it goes when its sends
      are taken, and its caller [Run] does not get past a call with a send
      that no worker takes;
    - the callees that get [*ChainElementExecution] are taken not to write
      the element; the writes of the scheduler itself ([ChainConfig],
      [StartedAt], [Duration]) are modelled;
    - a callee that panics or never returns is not modelled;
    - [retriveIntervalChainsAndRun] and [intervalChainWorker] live in another
      file and appear as one event each; the former may not come back;
    - the admission wait [WaitTime * Second] is taken to fit a
      [time.Duration]. *)

From Stdlib Require Import ZArith List String Ascii Bool Lia.
Import ListNotations.

Open Scope string_scope.
Open Scope list_scope.
Open Scope Z_scope.

(** ** Constants *)

Definition workersNumber : Z := 16.

(** The main loop period, in seconds. *)
Definition refetchTimeout : Z := 60.

(** If more chains than this are pulled in one cycle their execution is
    spread out. *)
Definition maxChainsThreshold : Z := workersNumber * refetchTimeout.

(** [time.Duration] counts nanoseconds. *)
Definition Millisecond : Z := 1000000.
Definition Second : Z := 1000 * Millisecond.

(** The line feed and the tab of the raw string literals. *)
Definition LF : string := String "010"%char EmptyString.
Definition TAB : string := String "009"%char EmptyString.

(** The raw string as it stands in the source, line by line: it begins with
    a line feed, and three of its lines end in a blank. *)
Definition sqlSelectLiveChains : string :=
  String.concat LF
    [EmptyString;
     "SELECT";
     (TAB ++ "chain_execution_config, chain_id, chain_name, self_destruct, exclusive_execution, COALESCE(max_instances, 16) as max_instances")%string;
     "FROM ";
     (TAB ++ "timetable.chain_execution_config ")%string;
     "WHERE ";
     (TAB ++ "live AND (client_name = $1 or client_name IS NULL)")%string].

Definition sqlSelectChains : string :=
  (sqlSelectLiveChains ++
   " AND NOT COALESCE(starts_with(run_at, '@'), FALSE) AND timetable.is_cron_in_time(run_at, now())")%string.

Definition sqlSelectRebootChains : string :=
  (sqlSelectLiveChains ++ " AND run_at = '@reboot'")%string.

(** ** Data *)

(** [type Chain struct]. Go's [int] is kept as [Z]: the code never does
    arithmetic on these fields. *)
Record Chain : Type := mkChain {
  ChainExecutionConfigID : Z;
  ChainID : Z;
  ChainName : string;
  SelfDestruct : bool;
  ExclusiveExecution : bool;
  MaxInstances : Z
}.

Inductive RunStatus : Type :=
| ConnectionDroppped
| ContextCancelled.

(** Go's [error]: [None] is [nil]. *)
Definition error : Type := option string.

Module pgengine.

(** [pgengine.ChainElementExecution], with the fields the scheduler reads or
    writes.  [StartedAt] is a clock reading in nanoseconds, [Duration] is in
    microseconds. *)
Record ChainElementExecution : Type := mkElem {
  ChainConfig : Z;
  ChainID : Z;
  TaskName : string;
  Script : string;
  Kind : string;
  IgnoreError : bool;
  StartedAt : Z;
  Duration : Z
}.

Definition setChainConfig (e : ChainElementExecution) (v : Z) :=
  mkElem v (ChainID e) (TaskName e) (Script e) (Kind e) (IgnoreError e)
         (StartedAt e) (Duration e).

Definition setStartedAt (e : ChainElementExecution) (v : Z) :=
  mkElem (ChainConfig e) (ChainID e) (TaskName e) (Script e) (Kind e)
         (IgnoreError e) v (Duration e).

Definition setDuration (e : ChainElementExecution) (v : Z) :=
  mkElem (ChainConfig e) (ChainID e) (TaskName e) (Script e) (Kind e)
         (IgnoreError e) (StartedAt e) v.

End pgengine.

Abbreviation Elem := pgengine.ChainElementExecution.

(** What a [select] over a timer and [ctx.Done()] observed. *)
Inductive selected : Type :=
| TimerFired
| CtxDone.

(** ** Events

    One constructor per call that leaves the scheduler.  Answers that steer
    the control flow are recorded in the event.  [fmt.Sprintf] is not
    modelled: a log event carries the level and the format text. *)
Inductive event : Type :=
| ELogToDB (level msg : string)
| ETryLockClientName (ok : bool)
| ESelect (timeout : Z) (o : selected)
| ESleep (d : Z)
| EGo (worker : string)
| ECancel
| ESetMaxOpenConns (n : Z)
| EFixSchedulerCrash
| EIsAlive (ok : bool)
| ESelectContext (sql client : string) (ok : bool)
| ESend (c : Chain)
| ERetriveIntervalChainsAndRun
| ECanProceedChainExecution (chainConfigID maxInstances : Z) (ok : bool)
| EDeleteChainConfig (chainConfigID : Z)
| EStartTransaction (ok : bool)
| EGetChainElements (chainID : Z) (ok : bool)
| EInsertChainRunStatus (chainConfigID chainID runStatusID : Z)
| EUpdateChainRunStatus (e : Elem) (runStatusID : Z) (status : string)
| EMustRollbackTransaction
| EMustCommitTransaction
| EGetChainParamValues (e : Elem) (ok : bool)
| EExecuteSQLTask (e : Elem) (paramValues : list string)
| EExecuteShellCommand (script : string) (paramValues : list string)
| EExecuteTask (taskName : string) (paramValues : list string)
| ELogChainElementExecution (e : Elem) (retCode : Z) (output : string).

Definition trace : Type := list event.

(** ** The outside world *)

Record World : Type := mkWorld {
  NoShellTasks : bool;
  WaitTime : Z;
  ClientName : string;
  (** [time.Now()], in nanoseconds *)
  oNow : trace -> Z;
  (** which case of a [select] on a timer and [ctx.Done()] is taken *)
  oSelect : trace -> selected;
  oTryLockClientName : trace -> bool;
  oIsAlive : trace -> bool;
  (** [ConfigDb.SelectContext]: the rows, or an error *)
  oSelectContext : trace -> string -> string -> list Chain + string;
  oCanProceedChainExecution : trace -> Z -> Z -> bool;
  (** [StartTransaction]: only the error matters, there is one transaction *)
  oStartTransaction : trace -> error;
  (** [GetChainElements]: [None] when it returns [false] *)
  oGetChainElements : trace -> Z -> option (list Elem);
  oInsertChainRunStatus : trace -> Z -> Z -> Z;
  (** [GetChainParamValues]: [None] when it returns [false] *)
  oGetChainParamValues : trace -> Elem -> option (list string);
  oExecuteSQLTask : trace -> Elem -> list string -> error;
  (** [executeShellCommand] returns [(retCode, out, err)] *)
  oExecuteShellCommand : trace -> string -> list string -> Z * string * error;
  oExecuteTask : trace -> string -> list string -> error;
  (** is the send on [chains] made at this point ever taken by a worker *)
  oTaken : trace -> Chain -> bool;
  (** does the call of [retriveIntervalChainsAndRun] made here come back *)
  oIntervalReturns : trace -> bool
}.

(** ** A history-reading writer monad

    A computation reads the history and returns its result with the events it
    added.  [bind] shows the second computation the history extended by the
    events of the first. *)
Definition M (A : Type) : Type := trace -> A * list event.

Definition ret {A : Type} (a : A) : M A := fun _ => (a, []).

Definition bind {A B : Type} (m : M A) (k : A -> M B) : M B :=
  fun h =>
    let (a, e1) := m h in
    let (b, e2) := k a (h ++ e1) in
    (b, e1 ++ e2).

(** Ask the world, and record the call. *)
Definition call {A : Type} (q : trace -> A) (ev : A -> event) : M A :=
  fun h => (q h, [ev (q h)]).

Definition emit (e : event) : M unit := fun _ => (tt, [e]).

(** Read the world without leaving an event (clock readings). *)
Definition peek {A : Type} (q : trace -> A) : M A := fun h => (q h, []).

Declare Scope monad_scope.
Delimit Scope monad_scope with monad.
Notation "x <- c1 ;; c2" := (bind c1%monad (fun x => c2%monad))
  (at level 61, c1 at next level, right associativity) : monad_scope.
Notation "' pat <- c1 ;; c2" :=
  (bind c1%monad (fun x => match x with pat => c2%monad end))
  (at level 61, pat pattern, c1 at next level, right associativity) : monad_scope.
Notation "c1 ;; c2" := (bind c1%monad (fun _ => c2%monad))
  (at level 61, right associativity) : monad_scope.
Open Scope monad_scope.

(** Loops that need not end run on fuel: [None] is "still running". *)
Definition MF (A : Type) : Type := trace -> option (A * list event).

Definition retF {A : Type} (a : A) : MF A := fun _ => Some (a, []).

Definition bindF {A B : Type} (m : MF A) (k : A -> MF B) : MF B :=
  fun h =>
    match m h with
    | None => None
    | Some (a, e1) =>
        match k a (h ++ e1) with
        | None => None
        | Some (b, e2) => Some (b, e1 ++ e2)
        end
    end.

Definition lift {A : Type} (m : M A) : MF A := fun h => Some (m h).

Definition spin {A : Type} : MF A := fun _ => None.

Declare Scope fuel_scope.
Delimit Scope fuel_scope with fuel.
Arguments lift {A} m%_monad.
Notation "x <- c1 ;; c2" := (bindF c1%fuel (fun x => c2%fuel))
  (at level 61, c1 at next level, right associativity) : fuel_scope.
Notation "c1 ;; c2" := (bindF c1%fuel (fun _ => c2%fuel))
  (at level 61, right associativity) : fuel_scope.

(** ** strings.TrimSpace

    A Go string is a sequence of bytes, and so is a [string] here.
    [strings.TrimSpace] takes leading and trailing white space off, rune by
    rune, where a rune is white space when [unicode.IsSpace] says so and a
    byte sequence that is not valid UTF-8 is not.  White space is U+0009 to
    U+000D, U+0020, U+0085, U+00A0, U+1680, U+2000 to U+200A, U+2028,
    U+2029, U+202F, U+205F and U+3000; [whiteSpace] lists their UTF-8
    encodings.  No encoding is a prefix or a suffix of another, so the
    string begins (or ends) with a white space rune exactly when it begins
    (or ends) with one of them. *)

Definition bytesOf (s : string) : list N :=
  map N_of_ascii (list_ascii_of_string s).

Definition stringOf (l : list N) : string :=
  string_of_list_ascii (map ascii_of_N l).

Definition whiteSpace : list (list N) :=
  [[9]; [10]; [11]; [12]; [13]; [32];
   [194; 133]; [194; 160];
   [225; 154; 128];
   [226; 128; 128]; [226; 128; 129]; [226; 128; 130]; [226; 128; 131];
   [226; 128; 132]; [226; 128; 133]; [226; 128; 134]; [226; 128; 135];
   [226; 128; 136]; [226; 128; 137]; [226; 128; 138];
   [226; 128; 168]; [226; 128; 169]; [226; 128; 175];
   [226; 129; 159];
   [227; 128; 128]]%N.

Fixpoint startsWith (p l : list N) : bool :=
  match p, l with
  | [], _ => true
  | a :: p', b :: l' => (a =? b)%N && startsWith p' l'
  | _ :: _, [] => false
  end.

(** Take the runes of [runes] off the front, as long as there is one. *)
Fixpoint trimFront (runes : list (list N)) (fuel : nat) (l : list N)
  : list N :=
  match fuel with
  | O => l
  | S fuel' =>
      match find (fun p => startsWith p l) runes with
      | Some p => trimFront runes fuel' (skipn (List.length p) l)
      | None => l
      end
  end.

(** The back is trimmed as the front of the reversed bytes, with the
    encodings reversed. *)
Definition TrimSpace (s : string) : string :=
  let front := trimFront whiteSpace (String.length s) (bytesOf s) in
  let back := trimFront (map (@rev N) whiteSpace) (List.length front)
                        (rev front) in
  stringOf (rev back).

(** ** The scheduler *)

Section Scheduler.

Variable w : World.

(** *** Calls into pgengine and the task backends *)

Definition isNil (err : error) : bool :=
  match err with None => true | Some _ => false end.

Definition isSome {A : Type} (o : option A) : bool :=
  match o with None => false | Some _ => true end.

Definition LogToDB (level msg : string) : M unit := emit (ELogToDB level msg).

Definition StartTransaction : M error :=
  call (oStartTransaction w) (fun err => EStartTransaction (isNil err)).

Definition GetChainElements (chainID : Z) : M (option (list Elem)) :=
  call (fun h => oGetChainElements w h chainID)
       (fun r => EGetChainElements chainID (isSome r)).

Definition InsertChainRunStatus (chainConfigID chainID : Z) : M Z :=
  call (fun h => oInsertChainRunStatus w h chainConfigID chainID)
       (EInsertChainRunStatus chainConfigID chainID).

Definition UpdateChainRunStatus (e : Elem) (runStatusID : Z) (status : string)
  : M unit :=
  emit (EUpdateChainRunStatus e runStatusID status).

Definition MustRollbackTransaction : M unit := emit EMustRollbackTransaction.
Definition MustCommitTransaction : M unit := emit EMustCommitTransaction.

Definition GetChainParamValues (e : Elem) : M (option (list string)) :=
  call (fun h => oGetChainParamValues w h e)
       (fun r => EGetChainParamValues e (isSome r)).

Definition ExecuteSQLTask (e : Elem) (paramValues : list string) : M error :=
  fun h => (oExecuteSQLTask w h e paramValues, [EExecuteSQLTask e paramValues]).

Definition executeShellCommand (script : string) (paramValues : list string)
  : M (Z * string * error) :=
  fun h => (oExecuteShellCommand w h script paramValues,
            [EExecuteShellCommand script paramValues]).

Definition ExecuteTask (taskName : string) (paramValues : list string)
  : M error :=
  fun h => (oExecuteTask w h taskName paramValues,
            [EExecuteTask taskName paramValues]).

Definition LogChainElementExecution (e : Elem) (retCode : Z) (output : string)
  : M unit :=
  emit (ELogChainElementExecution e retCode output).

(** *** executeChainElement

    The [switch] on the kind: what each case leaves in [retCode], [out] and
    [err].  A disabled shell task leaves the function at once, which is the
    [None] here.  The three variables start at their zero values, and a kind
    that matches no case leaves them there. *)
Definition dispatch (e : Elem) (paramValues : list string)
  : M (option (Z * string * error)) :=
  if (pgengine.Kind e =? "SQL")%string then
    err <- ExecuteSQLTask e paramValues ;;
    ret (Some (0, EmptyString, err))
  else if (pgengine.Kind e =? "SHELL")%string then
    if NoShellTasks w then
      LogToDB "LOG" "Shell task execution skipped: " ;;
      ret None
    else
      r <- executeShellCommand (pgengine.Script e) paramValues ;;
      ret (Some r)
  else if (pgengine.Kind e =? "BUILTIN")%string then
    err <- ExecuteTask (pgengine.TaskName e) paramValues ;;
    ret (Some (0, EmptyString, err))
  else
    ret (Some (0, EmptyString, None)).

(** The element is passed by pointer and its [StartedAt] and [Duration] are
    written, so the element is returned next to the code.  (The source
    spells the name with a Cyrillic letter.) *)
Definition executeChainElement (e : Elem) : M (Z * Elem) :=
  LogToDB "DEBUG" "Executing task: %s" ;;
  pv <- GetChainParamValues e ;;
  match pv with
  | None => ret (-1, e)
  | Some paramValues =>
      now <- peek (oNow w) ;;
      let e := pgengine.setStartedAt e now in
      r <- dispatch e paramValues ;;
      match r with
      | None => ret (-1, e)
      | Some (retCode, out, err) =>
          now' <- peek (oNow w) ;;
          let e := pgengine.setDuration e
                     (Z.quot (now' - pgengine.StartedAt e) 1000) in
          LogChainElementExecution e retCode (TrimSpace out) ;;
          match err with
          | Some _ =>
              LogToDB "ERROR" "Task execution failed: %s; Error: %s" ;;
              if negb (retCode =? 0) then ret (retCode, e) else ret (-1, e)
          | None =>
              LogToDB "DEBUG" "Task executed successfully: %s" ;;
              ret (0, e)
          end
      end
  end.

(** *** executeChain

    The loop over the elements.  It answers [false] when it left through
    the [return] of the failure branch, [true] when it ran off the end. *)
Fixpoint executeChainElements (chainConfigID chainID runStatusID : Z)
         (ChainElements : list Elem) : M bool :=
  match ChainElements with
  | [] => ret true
  | chainElemExec :: rest =>
      let chainElemExec := pgengine.setChainConfig chainElemExec chainConfigID in
      UpdateChainRunStatus chainElemExec runStatusID "STARTED" ;;
      ' (retCode, chainElemExec) <- executeChainElement chainElemExec ;;
      if negb (retCode =? 0) && negb (pgengine.IgnoreError chainElemExec) then
        LogToDB "ERROR" "Chain ID: %d failed" ;;
        UpdateChainRunStatus chainElemExec runStatusID "CHAIN_FAILED" ;;
        MustRollbackTransaction ;;
        ret false
      else
        UpdateChainRunStatus chainElemExec runStatusID "CHAIN_DONE" ;;
        executeChainElements chainConfigID chainID runStatusID rest
  end.

(** The element literal of the closing status update: every other field has
    its zero value. *)
Definition chainHeader (chainConfigID chainID : Z) : Elem :=
  pgengine.mkElem chainConfigID chainID EmptyString EmptyString EmptyString
                  false 0 0.

Definition executeChain (chainConfigID chainID : Z) : M unit :=
  err <- StartTransaction ;;
  match err with
  | Some _ => LogToDB "ERROR" "Cannot start transaction: "
  | None =>
      LogToDB "LOG" "Starting chain ID: %d; configuration ID: %d" ;;
      got <- GetChainElements chainID ;;
      match got with
      | None => MustRollbackTransaction
      | Some ChainElements =>
          runStatusID <- InsertChainRunStatus chainConfigID chainID ;;
          finished <- executeChainElements chainConfigID chainID runStatusID
                        ChainElements ;;
          if finished then
            LogToDB "LOG"
              "Executed successfully chain ID: %d; configuration ID: %d" ;;
            UpdateChainRunStatus (chainHeader chainConfigID chainID)
              runStatusID "CHAIN_DONE" ;;
            MustCommitTransaction
          else ret tt
      end
  end.

(** *** retriveChainsAndRun *)

Definition isRows {A B : Type} (r : A + B) : bool :=
  match r with inl _ => true | inr _ => false end.

(** The [range] loop that hands the chains to the workers.  Go's [/] on
    [int] truncates, hence [Z.quot]; [chains <- headChain] is [ESend]. *)
Fixpoint sendChains (headChainsCount : Z) (headChains : list Chain) : M unit :=
  match headChains with
  | [] => ret tt
  | headChain :: rest =>
      (if headChainsCount >? maxChainsThreshold then
         emit (ESleep (Z.quot (refetchTimeout * 1000) headChainsCount
                       * Millisecond))
       else ret tt) ;;
      LogToDB "DEBUG" "Putting head chain %s to the execution channel" ;;
      emit (ESend headChain) ;;
      sendChains headChainsCount rest
  end.

Definition retriveChainsAndRun (sql : string) : M unit :=
  got <- call (fun h => oSelectContext w h sql (ClientName w))
              (fun r => ESelectContext sql (ClientName w) (isRows r)) ;;
  match got with
  | inr _ => LogToDB "ERROR" "Could not query pending tasks: "
  | inl headChains =>
      let headChainsCount := Z.of_nat (List.length headChains) in
      LogToDB "LOG" "Number of chains to be executed: " ;;
      sendChains headChainsCount headChains
  end.

(** *** chainWorker *)

Definition requestCancelled : string :=
  String.append "request cancelled" (String "010"%char EmptyString).

Definition select (timeout : Z) : M selected :=
  call (oSelect w) (ESelect timeout).

Definition CanProceedChainExecution (chainConfigID maxInstances : Z) : M bool :=
  call (fun h => oCanProceedChainExecution w h chainConfigID maxInstances)
       (ECanProceedChainExecution chainConfigID maxInstances).

Definition DeleteChainConfig (chainConfigID : Z) : M unit :=
  emit (EDeleteChainConfig chainConfigID).

(** The admission loop of the worker: [true] when the chain may proceed,
    [false] when the worker saw the cancellation and returned. *)
Fixpoint waitForAdmission (fuel : nat) (chain : Chain) : MF bool :=
  match fuel with
  | O => spin
  | S fuel' =>
      (ok <- lift (CanProceedChainExecution (ChainExecutionConfigID chain)
                                            (MaxInstances chain)) ;;
       if ok then retF true
       else
         o <- lift (LogToDB "DEBUG" "Cannot proceed with chain %s. Sleeping..." ;;
                    select (WaitTime w * Second)) ;;
         match o with
         | TimerFired => waitForAdmission fuel' chain
         | CtxDone =>
             lift (LogToDB "ERROR" requestCancelled) ;;
             retF false
         end)%fuel
  end.

(** The worker, fed the chains its channel delivers until it is closed.
    [fuel] bounds the admission probes spent on one chain. *)
Fixpoint chainWorker (fuel : nat) (chains : list Chain) : MF unit :=
  match chains with
  | [] => retF tt
  | chain :: rest =>
      (lift (LogToDB "DEBUG" "Calling process chain for %s") ;;
       proceed <- waitForAdmission fuel chain ;;
       if proceed then
         lift (executeChain (ChainExecutionConfigID chain) (ChainID chain) ;;
               if SelfDestruct chain then
                 DeleteChainConfig (ChainExecutionConfigID chain)
               else ret tt) ;;
         chainWorker fuel rest
       else retF tt)%fuel
  end.

(** *** Run *)

Definition TryLockClientName : M bool :=
  call (oTryLockClientName w) ETryLockClientName.

Definition IsAlive : M bool := call (oIsAlive w) EIsAlive.

(** The first loop of [Run]: [true] once the client name is locked,
    [false] when the cancellation was seen first. *)
Fixpoint lockClientName (fuel : nat) : MF bool :=
  match fuel with
  | O => spin
  | S fuel' =>
      (ok <- lift TryLockClientName ;;
       if ok then retF true
       else
         o <- lift (select (refetchTimeout * Second)) ;;
         match o with
         | TimerFired => lockClientName fuel'
         | CtxDone =>
             lift (LogToDB "ERROR" requestCancelled) ;;
             retF false
         end)%fuel
  end.

(** Each round starts a chain worker and an interval chain worker, and
    defers the two [cancel] functions. *)
Fixpoint startWorkers (n : nat) : M unit :=
  match n with
  | O => ret tt
  | S n' =>
      emit (EGo "chainWorker") ;;
      emit (EGo "intervalChainWorker") ;;
      startWorkers n'
  end.

Fixpoint runDeferred (n : nat) : M unit :=
  match n with
  | O => ret tt
  | S n' => emit ECancel ;; runDeferred n'
  end.

(** A send on the unbuffered channel comes back once a worker takes the
    chain.  [oTaken] says whether the send made at a point is ever taken;
    [taken] asks it for each send of a list of events, at the history the
    send is made at. *)
Fixpoint taken (h : trace) (evs : list event) : bool :=
  match evs with
  | [] => true
  | ev :: evs' =>
      match ev with
      | ESend c => oTaken w h c
      | _ => true
      end && taken (h ++ [ev]) evs'
  end.

(** A call that sends, seen from its caller: it comes back with its events
    when every send is taken, and waits for ever on one that is not. *)
Definition returning {A : Type} (m : M A) : MF A :=
  fun h => let (a, evs) := m h in
           if taken h evs then Some (a, evs) else None.

Arguments returning {A} m%_monad.

(** [retriveIntervalChainsAndRun] is in another file of the package: one
    event, if it comes back at all. *)
Definition retriveIntervalChainsAndRun : MF unit :=
  fun h => if oIntervalReturns w h
           then Some (tt, [ERetriveIntervalChainsAndRun]) else None.

(** One turn of the [for] loop without a condition, up to its [select]. *)
Definition pollBody : MF unit :=
  (lift (LogToDB "LOG" "Checking for task chains...") ;;
   returning (retriveChainsAndRun sqlSelectChains) ;;
   lift (LogToDB "LOG" "Checking for interval task chains...") ;;
   retriveIntervalChainsAndRun)%fuel.

(** The [for] loop without a condition. *)
Fixpoint pollLoop (fuel : nat) : MF RunStatus :=
  match fuel with
  | O => spin
  | S fuel' =>
      (pollBody ;;
       o <- lift (select (refetchTimeout * Second)) ;;
       match o with
       | TimerFired =>
           alive <- lift IsAlive ;;
           if alive then pollLoop fuel' else retF ConnectionDroppped
       | CtxDone =>
           lift (LogToDB "ERROR" requestCancelled) ;;
           retF ContextCancelled
       end)%fuel
  end.

(** From the lock to the poll for the reboot chains. *)
Definition startUp : MF unit :=
  (lift (startWorkers (Z.to_nat workersNumber) ;;
         emit (ESetMaxOpenConns (workersNumber + 1)) ;;
         emit EFixSchedulerCrash ;;
         LogToDB "LOG" "Checking for @reboot task chains...") ;;
   returning (retriveChainsAndRun sqlSelectRebootChains))%fuel.

Definition Run (fuel : nat) : MF RunStatus :=
  (locked <- lockClientName fuel ;;
   if locked then
     startUp ;;
     status <- pollLoop fuel ;;
     lift (runDeferred (2 * Z.to_nat workersNumber)) ;;
     retF status
   else retF ContextCancelled)%fuel.

End Scheduler.

(** ** Reading a trace *)

(** Calls that reach a task backend. *)
Definition isBackendCall (ev : event) : bool :=
  match ev with
  | EExecuteSQLTask _ _ | EExecuteShellCommand _ _ | EExecuteTask _ _ => true
  | _ => false
  end.

(** The status labels written by [UpdateChainRunStatus], in order. *)
Fixpoint statusLabels (evs : list event) : list string :=
  match evs with
  | [] => []
  | EUpdateChainRunStatus _ _ status :: evs' => status :: statusLabels evs'
  | _ :: evs' => statusLabels evs'
  end.

Definition isInsertChainRunStatus (ev : event) : bool :=
  match ev with EInsertChainRunStatus _ _ _ => true | _ => false end.

(** Sleeps and sends, the two events of the hand-over loop that take time. *)
Definition isSleepOrSend (ev : event) : bool :=
  match ev with ESleep _ | ESend _ => true | _ => false end.

(** The code a dispatched element returns. *)
Definition resultCode (w : World) (e : Elem) (h : trace) : Z :=
  fst (fst (executeChainElement w e h)).

(** ** Landmarks of a run

    Names for the histories, elements and event lists the statements below
    speak about. *)

(** The elements [executeChainElement] was entered for, in order: each entry
    asks for the parameter values exactly once. *)
Fixpoint enteredElements (evs : list event) : list Elem :=
  match evs with
  | [] => []
  | EGetChainParamValues e _ :: evs' => e :: enteredElements evs'
  | _ :: evs' => enteredElements evs'
  end.

(** The history the dispatcher sees once the parameters are resolved. *)
Definition resolved (e : Elem) (h : trace) : trace :=
  h ++ [ELogToDB "DEBUG" "Executing task: %s"; EGetChainParamValues e true].

Definition startingChain : string :=
  "Starting chain ID: %d; configuration ID: %d".

(** The label written after an element came back. *)
Definition closingLabel (retCode : Z) (e : Elem) : string :=
  if negb (retCode =? 0) && negb (pgengine.IgnoreError e)
  then "CHAIN_FAILED" else "CHAIN_DONE".

Definition opening : list event :=
  [EStartTransaction true; ELogToDB "LOG" startingChain].

Definition closing (cfg id rid : Z) : list event :=
  [ELogToDB "LOG" "Executed successfully chain ID: %d; configuration ID: %d";
   EUpdateChainRunStatus (chainHeader cfg id) rid "CHAIN_DONE";
   EMustCommitTransaction].

(** The sleep of one turn of the hand-over loop, as a [time.Duration]. *)
Definition smoothingDelay (headChainsCount : Z) : Z :=
  Z.quot (refetchTimeout * 1000) headChainsCount * Millisecond.

Definition calling : event := ELogToDB "DEBUG" "Calling process chain for %s".

Definition pollWait : Z := refetchTimeout * Second.

(** How a return of [Run] shows in the trace. *)
Definition cancelledEnd : list event :=
  [ESelect pollWait CtxDone; ELogToDB "ERROR" requestCancelled].

Definition droppedEnd : list event :=
  [ESelect pollWait TimerFired; EIsAlive false].

(** The deferred [cancel] calls, two per worker round. *)
Definition deferred : list event := repeat ECancel 32.

(** A probe of the lock that failed and the wait after it that ran out; a
    wait of the poll loop that ran out and the liveness probe after it that
    succeeded.  Either sends its loop round again. *)
Definition lockWait : list event :=
  [ETryLockClientName false; ESelect pollWait TimerFired].

Definition aliveEnd : list event :=
  [ESelect pollWait TimerFired; EIsAlive true].

(** *** The ways out of Run

    The three [return] statements of [Run], each with what the outside must
    have answered for the control to get there, and with the events left on
    the way.  A history is the one the question is asked at. *)

(** The loop around [TryLockClientName] (lines 66 to 74): it is left with
    [true] by a probe that succeeds, and with [false] through the [return]
    of line 72, when the wait after a failed probe sees [ctx.Done()]. *)
Inductive LockLoop (w : World) : trace -> bool -> list event -> Prop :=
| lock_taken (h : trace) :
    oTryLockClientName w h = true ->
    LockLoop w h true [ETryLockClientName true]
| lock_cancelled (h : trace) :
    oTryLockClientName w h = false ->
    oSelect w (h ++ [ETryLockClientName false]) = CtxDone ->
    LockLoop w h false ([ETryLockClientName false] ++ cancelledEnd)
| lock_again (h : trace) (locked : bool) (evs : list event) :
    oTryLockClientName w h = false ->
    oSelect w (h ++ [ETryLockClientName false]) = TimerFired ->
    LockLoop w (h ++ lockWait) locked evs ->
    LockLoop w h locked (lockWait ++ evs).

(** The loop without a condition (lines 91 to 106).  Each turn first gets
    through its two polls, which takes every send to be taken and the
    interval poll to come back.  Then the [select] sees [ctx.Done()] and the
    loop is left through line 104, or the timer fires and the liveness probe
    fails, which is line 99, or the probe succeeds and the loop turns
    again. *)
Inductive PollLoop (w : World) : trace -> RunStatus -> list event -> Prop :=
| poll_cancelled (h : trace) (body : list event) :
    pollBody w h = Some (tt, body) ->
    oSelect w (h ++ body) = CtxDone ->
    PollLoop w h ContextCancelled (body ++ cancelledEnd)
| poll_dropped (h : trace) (body : list event) :
    pollBody w h = Some (tt, body) ->
    oSelect w (h ++ body) = TimerFired ->
    oIsAlive w (h ++ body ++ [ESelect pollWait TimerFired]) = false ->
    PollLoop w h ConnectionDroppped (body ++ droppedEnd)
| poll_again (h : trace) (body : list event) (status : RunStatus)
             (evs : list event) :
    pollBody w h = Some (tt, body) ->
    oSelect w (h ++ body) = TimerFired ->
    oIsAlive w (h ++ body ++ [ESelect pollWait TimerFired]) = true ->
    PollLoop w (h ++ body ++ aliveEnd) status evs ->
    PollLoop w h status (body ++ aliveEnd ++ evs).

(** [Run]: out of the lock loop with the cancellation, or through the lock,
    the start-up and the poll loop, and then the deferred calls. *)
Inductive Returns (w : World) (h : trace) : RunStatus -> list event -> Prop :=
| cancelled_at_lock (evs : list event) :
    LockLoop w h false evs ->
    Returns w h ContextCancelled evs
| left_poll_loop (evs0 evs1 evs2 : list event) (status : RunStatus) :
    LockLoop w h true evs0 ->
    startUp w (h ++ evs0) = Some (tt, evs1) ->
    PollLoop w (h ++ evs0 ++ evs1) status evs2 ->
    Returns w h status (evs0 ++ evs1 ++ evs2 ++ deferred).



(** ** The store *)

(** Modelled from the spec: the store behind [pgengine.DeleteChainConfig],
    which is not part of this file.  The spec's
    [deleteChainConfiguration(configID)] removes the configuration, and no
    call of the scheduler adds one; the eligible set of a poll is drawn from
    the configurations that are left. *)
Definition storeStep (configs : list Z) (ev : event) : list Z :=
  match ev with
  | EDeleteChainConfig c => filter (fun x => negb (x =? c)) configs
  | _ => configs
  end.

Definition storeAfter (configs : list Z) (evs : list event) : list Z :=
  fold_left storeStep evs configs.

Definition withConfig (cfg : Z) (e : Elem) : Elem := pgengine.setChainConfig e cfg.

Section Landmarks.

Variable w : World.

(** The element as the dispatcher gets it: [StartedAt] is set. *)
Definition stamped (e : Elem) (h : trace) : Elem :=
  pgengine.setStartedAt e (oNow w (resolved e h)).

(** The identifier [InsertChainRunStatus] hands out for this run. *)
Definition runStatusID (cfg id : Z) (h : trace) : Z :=
  oInsertChainRunStatus w (h ++ opening ++ [EGetChainElements id true]) cfg id.

(** The events of a run up to the loop. *)
Definition header (cfg id : Z) (h : trace) : list event :=
  opening ++ [EGetChainElements id true;
              EInsertChainRunStatus cfg id (runStatusID cfg id h)].

End Landmarks.

(** ** Concrete worlds *)

Definition sqlElem : Elem :=
  pgengine.mkElem 0 1 EmptyString "UPDATE t SET x=1" "SQL" false 0 0.
Definition shellElem (ignoreError : bool) : Elem :=
  pgengine.mkElem 0 1 EmptyString "exit 1" "SHELL" ignoreError 0 0.
Definition builtinElem : Elem :=
  pgengine.mkElem 0 1 "noop" EmptyString "BUILTIN" false 0 0.
Definition odditElem : Elem :=
  pgengine.mkElem 0 1 EmptyString EmptyString "HTTP" false 0 0.

Definition oneShot : Chain := mkChain 7 1 "one shot" true false 16.

(** A world in which the store works, the clock advances a millisecond per
    event, SQL and built-in tasks succeed, and a shell command fails with
    exit code 1 exactly when its script is [exit 1]. *)
Definition testWorld (noShell : bool) (sel : trace -> selected)
           (alive : bool) (params : option (list string))
           (elems : option (list Elem)) (sqlErr : error)
           (rows : list Chain) : World :=
  {| NoShellTasks := noShell;
     WaitTime := 1;
     ClientName := "worker";
     oNow := fun h => Z.of_nat (List.length h) * Millisecond;
     oSelect := sel;
     oTryLockClientName := fun _ => true;
     oIsAlive := fun _ => alive;
     oSelectContext := fun _ _ _ => inl rows;
     oCanProceedChainExecution := fun _ _ _ => true;
     oStartTransaction := fun _ => None;
     oGetChainElements := fun _ _ => elems;
     oInsertChainRunStatus := fun _ _ _ => 42;
     oGetChainParamValues := fun _ _ => params;
     oExecuteSQLTask := fun _ _ _ => sqlErr;
     oExecuteShellCommand := fun _ script _ =>
       if (script =? "exit 1")%string then (1, EmptyString, Some "exit status 1")
       else (0, EmptyString, None);
     oExecuteTask := fun _ _ _ => None;
     oTaken := fun _ _ => true;
     oIntervalReturns := fun _ => true |}.

(** The chain of the specification's scenario. *)
Definition scenario : World :=
  testWorld false (fun _ => CtxDone) true (Some [])
            (Some [sqlElem; shellElem false; builtinElem]) None [oneShot].

(** A world whose SQL tasks fail. *)
Definition sqlFails : World :=
  testWorld false (fun _ => CtxDone) true (Some [])
            (Some [sqlElem]) (Some "syntax error") [].

(** Shell execution is switched off. *)
Definition shellOff : World :=
  testWorld true (fun _ => CtxDone) true (Some [])
            (Some [shellElem false]) None [].

(** The fetch of the elements fails. *)
Definition fetchFails : World :=
  testWorld false (fun _ => CtxDone) true (Some []) None None [].

(** The chain has no elements. *)
Definition emptyChain : World :=
  testWorld false (fun _ => CtxDone) true (Some []) (Some []) None [].

(** A failing shell element whose error is ignored, then a built-in task. *)
Definition ignoredFailure : World :=
  testWorld false (fun _ => CtxDone) true (Some [])
            (Some [shellElem true; builtinElem]) None [].

(** An element of a kind the dispatcher does not know, then a SQL task. *)
Definition oddKind : World :=
  testWorld false (fun _ => CtxDone) true (Some [])
            (Some [odditElem; sqlElem]) None [].

(** A poll that fetches 961 chains, and one that fetches 960. *)
Definition burst : World :=
  testWorld false (fun _ => CtxDone) true (Some []) (Some []) None
            (repeat oneShot 961).
Definition noBurst : World :=
  testWorld false (fun _ => CtxDone) true (Some []) (Some []) None
            (repeat oneShot 960).

(** The timer always fires and the store is gone. *)
Definition storeGone : World :=
  testWorld false (fun _ => TimerFired) false (Some []) (Some []) None [].

(** The scenario of the specification: a SQL task, a shell task that exits
    with 1 and is not ignored, a built-in task. *)
Definition scenarioPrefix : list event :=
  snd (executeChainElements scenario 7 1 42 [sqlElem] (header scenario 7 1 [])).

Definition scenarioFailure : Z * Elem * list event :=
  executeChainElement scenario (withConfig 7 (shellElem false))
    (header scenario 7 1 [] ++ scenarioPrefix ++
     [EUpdateChainRunStatus (withConfig 7 (shellElem false)) 42 "STARTED"]).

Definition ignoredRun : Z * Elem * list event :=
  executeChainElement ignoredFailure (withConfig 7 (shellElem true))
    [EUpdateChainRunStatus (withConfig 7 (shellElem true)) 42 "STARTED"].

Definition letIn : list event := [ECanProceedChainExecution 7 16 true].

(** ** Alphabets and further readers

    Which events a function can leave in the trace, and projections of a
    trace used to state what a run did and did not do. *)

(** The events of [executeChainElement]. *)
Definition elementEvent (ev : event) : bool :=
  match ev with
  | ELogToDB _ _ | EGetChainParamValues _ _ | EExecuteSQLTask _ _
  | EExecuteShellCommand _ _ | EExecuteTask _ _
  | ELogChainElementExecution _ _ _ => true
  | _ => false
  end.

(** The events of [executeChain]. *)
Definition runEvent (ev : event) : bool :=
  match ev with
  | EStartTransaction _ | EGetChainElements _ _ | EInsertChainRunStatus _ _ _
  | EUpdateChainRunStatus _ _ _ | EMustRollbackTransaction
  | EMustCommitTransaction => true
  | _ => elementEvent ev
  end.

(** The events of the admission loop of a worker. *)
Definition waitEvent (ev : event) : bool :=
  match ev with
  | ELogToDB _ _ | ECanProceedChainExecution _ _ _ | ESelect _ _ => true
  | _ => false
  end.

(** The events of [retriveChainsAndRun]. *)
Definition pollerEvent (ev : event) : bool :=
  match ev with
  | ELogToDB _ _ | ESelectContext _ _ _ | ESleep _ | ESend _ => true
  | _ => false
  end.


Definition isTxEnd (ev : event) : bool :=
  match ev with
  | EMustRollbackTransaction | EMustCommitTransaction => true
  | _ => false
  end.

Definition isStartTransaction (ev : event) : bool :=
  match ev with EStartTransaction _ => true | _ => false end.

Definition isDeleteChainConfig (ev : event) : bool :=
  match ev with EDeleteChainConfig _ => true | _ => false end.

Definition isExecuteShellCommand (ev : event) : bool :=
  match ev with EExecuteShellCommand _ _ => true | _ => false end.

Definition isExecutionLog (ev : event) : bool :=
  match ev with ELogChainElementExecution _ _ _ => true | _ => false end.



(** The chains sent on the channel, in order. *)
Fixpoint sentChains (evs : list event) : list Chain :=
  match evs with
  | [] => []
  | ESend c :: evs' => c :: sentChains evs'
  | _ :: evs' => sentChains evs'
  end.

(** The time slept, as a [time.Duration]. *)
Fixpoint totalSleep (evs : list event) : Z :=
  match evs with
  | [] => 0
  | ESleep d :: evs' => d + totalSleep evs'
  | _ :: evs' => totalSleep evs'
  end.

(** The queries [retriveChainsAndRun] sent to the configuration store, in
    order. *)
Fixpoint polls (evs : list event) : list string :=
  match evs with
  | [] => []
  | ESelectContext sql _ _ :: evs' => sql :: polls evs'
  | _ :: evs' => polls evs'
  end.

(** The configurations deleted, in order. *)
Fixpoint deletedConfigs (evs : list event) : list Z :=
  match evs with
  | [] => []
  | EDeleteChainConfig c :: evs' => c :: deletedConfigs evs'
  | _ :: evs' => deletedConfigs evs'
  end.

(** The status labels of [k] elements that let the chain go on. *)
Definition rounds (k : nat) : list string :=
  List.concat (repeat ["STARTED"; "CHAIN_DONE"] k).

(** A status update carries the configuration and the run status
    identifier of its run, and one of the three labels the executor has. *)
Definition statusOf (cfg rid : Z) (ev : event) : Prop :=
  match ev with
  | EUpdateChainRunStatus e r status =>
      pgengine.ChainConfig e = cfg /\ r = rid /\
      (status = "STARTED" \/ status = "CHAIN_DONE" \/ status = "CHAIN_FAILED")
  | _ => True
  end.

(** Every backend call in the trace is the one the kind of [e] selects. *)
Definition backendOf (w : World) (e : Elem) (ev : event) : Prop :=
  match ev with
  | EExecuteSQLTask _ _ => pgengine.Kind e = "SQL"
  | EExecuteShellCommand script _ =>
      pgengine.Kind e = "SHELL" /\ NoShellTasks w = false /\
      script = pgengine.Script e
  | EExecuteTask taskName _ =>
      pgengine.Kind e = "BUILTIN" /\ taskName = pgengine.TaskName e
  | _ => True
  end.

(** An execution log entry of a task without a numeric code. *)
Definition logsZero (ev : event) : Prop :=
  match ev with
  | ELogChainElementExecution _ retCode output =>
      retCode = 0 /\ output = EmptyString
  | _ => True
  end.

(** An execution log entry with a duration that is not negative. *)
Definition logsDuration (ev : event) : Prop :=
  match ev with
  | ELogChainElementExecution e _ _ => 0 <= pgengine.Duration e
  | _ => True
  end.

(** A delete of a configuration that one of [chains] asked for. *)
Definition deleteOf (chains : list Chain) (ev : event) : Prop :=
  match ev with
  | EDeleteChainConfig c =>
      exists chain, In chain chains /\ SelfDestruct chain = true /\
                    ChainExecutionConfigID chain = c
  | _ => True
  end.

(** The events of the lock loop of [Run]. *)
Definition lockEvent (ev : event) : bool :=
  match ev with
  | ELogToDB _ _ | ETryLockClientName _ | ESelect _ _ => true
  | _ => false
  end.



(** Worlds that differ from a given one in a single answer. *)
Definition withStartTransaction (w : World) (err : error) : World :=
  mkWorld (NoShellTasks w) (WaitTime w) (ClientName w) (oNow w) (oSelect w)
          (oTryLockClientName w) (oIsAlive w) (oSelectContext w)
          (oCanProceedChainExecution w) (fun _ => err) (oGetChainElements w)
          (oInsertChainRunStatus w) (oGetChainParamValues w)
          (oExecuteSQLTask w) (oExecuteShellCommand w) (oExecuteTask w)
          (oTaken w) (oIntervalReturns w).

Definition withSelectContext (w : World) (r : list Chain + string) : World :=
  mkWorld (NoShellTasks w) (WaitTime w) (ClientName w) (oNow w) (oSelect w)
          (oTryLockClientName w) (oIsAlive w) (fun _ _ _ => r)
          (oCanProceedChainExecution w) (oStartTransaction w)
          (oGetChainElements w) (oInsertChainRunStatus w)
          (oGetChainParamValues w) (oExecuteSQLTask w)
          (oExecuteShellCommand w) (oExecuteTask w)
          (oTaken w) (oIntervalReturns w).

Definition withCanProceed (w : World) (ok : bool) : World :=
  mkWorld (NoShellTasks w) (WaitTime w) (ClientName w) (oNow w) (oSelect w)
          (oTryLockClientName w) (oIsAlive w) (oSelectContext w)
          (fun _ _ _ => ok) (oStartTransaction w) (oGetChainElements w)
          (oInsertChainRunStatus w) (oGetChainParamValues w)
          (oExecuteSQLTask w) (oExecuteShellCommand w) (oExecuteTask w)
          (oTaken w) (oIntervalReturns w).

(** The transaction cannot be started. *)
Definition startFails : World := withStartTransaction scenario (Some "no connection").

(** The query for the due chains fails. *)
Definition queryFails : World := withSelectContext scenario (inr "timeout").

(** The chain may never proceed, and the wait sees the cancellation. *)
Definition shutOut : World := withCanProceed scenario false.

(** The parameter values of no element resolve. *)
Definition paramsFail : World :=
  testWorld false (fun _ => CtxDone) true None
            (Some [sqlElem; builtinElem]) None [].

(** No worker ever takes a chain from the channel. *)
Definition jammed : World :=
  mkWorld (NoShellTasks scenario) (WaitTime scenario) (ClientName scenario)
          (oNow scenario) (oSelect scenario) (oTryLockClientName scenario)
          (oIsAlive scenario) (oSelectContext scenario)
          (oCanProceedChainExecution scenario) (oStartTransaction scenario)
          (oGetChainElements scenario) (oInsertChainRunStatus scenario)
          (oGetChainParamValues scenario) (oExecuteSQLTask scenario)
          (oExecuteShellCommand scenario) (oExecuteTask scenario)
          (fun _ _ => false) (oIntervalReturns scenario).

(** The lock is held by somebody else, and the wait sees the cancellation. *)
Definition lockedOut : World :=
  mkWorld (NoShellTasks scenario) (WaitTime scenario) (ClientName scenario)
          (oNow scenario) (oSelect scenario) (fun _ => false)
          (oIsAlive scenario) (oSelectContext scenario)
          (oCanProceedChainExecution scenario) (oStartTransaction scenario)
          (oGetChainElements scenario) (oInsertChainRunStatus scenario)
          (oGetChainParamValues scenario) (oExecuteSQLTask scenario)
          (oExecuteShellCommand scenario) (oExecuteTask scenario)
          (oTaken scenario) (oIntervalReturns scenario).

(** A chain that is not deleted after its run. *)
Definition keeper : Chain := mkChain 8 1 "keeper" false false 16.

(** ** executeChainElement *)

(** Bring event lists to right-nested form. *)
Ltac flatten := rewrite ?app_nil_r, <- ?app_assoc; cbn [app].

Section Dispatch.

Variable w : World.

Lemma executeChainElement_unresolved (e : Elem) (h : trace) :
  oGetChainParamValues w (h ++ [ELogToDB "DEBUG" "Executing task: %s"]) e = None ->
  executeChainElement w e h =
    (-1, e, [ELogToDB "DEBUG" "Executing task: %s"; EGetChainParamValues e false]).
Proof.
  intros Hpv.
  unfold executeChainElement, bind, GetChainParamValues, call, LogToDB, emit, ret.
  rewrite Hpv. reflexivity.
Qed.

(** Once the parameters are resolved, the function is the dispatch followed
    by the bookkeeping. *)
Lemma executeChainElement_resolved (e : Elem) (h : trace) (pv : list string) :
  oGetChainParamValues w (h ++ [ELogToDB "DEBUG" "Executing task: %s"]) e = Some pv ->
  executeChainElement w e h =
    let e1 := stamped w e h in
    let (r, evs) := dispatch w e1 pv (resolved e h) in
    let pre := [ELogToDB "DEBUG" "Executing task: %s";
                EGetChainParamValues e true] ++ evs in
    match r with
    | None => (-1, e1, pre)
    | Some (retCode, out, err) =>
        let e2 := pgengine.setDuration e1
                    (Z.quot (oNow w (resolved e h ++ evs) - pgengine.StartedAt e1) 1000) in
        let logged := pre ++ [ELogChainElementExecution e2 retCode (TrimSpace out)] in
        match err with
        | Some _ =>
            (if retCode =? 0 then -1 else retCode, e2,
             logged ++ [ELogToDB "ERROR" "Task execution failed: %s; Error: %s"])
        | None =>
            (0, e2, logged ++ [ELogToDB "DEBUG" "Task executed successfully: %s"])
        end
    end.
Proof.
  intros Hpv.
  unfold executeChainElement, bind, GetChainParamValues, call, LogToDB, emit,
    ret, peek, LogChainElementExecution, stamped, resolved.
  rewrite Hpv. cbn [isSome]. flatten.
  destruct (dispatch w _ pv _) as [[[[retCode out] [msg|]]|] evs]; cbn.
  - flatten. destruct (retCode =? 0); cbn; flatten; reflexivity.
  - flatten. reflexivity.
  - flatten. reflexivity.
Qed.

Lemma stamped_Kind (e : Elem) (h : trace) :
  pgengine.Kind (stamped w e h) = pgengine.Kind e.
Proof. reflexivity. Qed.

Lemma stamped_IgnoreError (e : Elem) (h : trace) :
  pgengine.IgnoreError (stamped w e h) = pgengine.IgnoreError e.
Proof. reflexivity. Qed.

(** What the [switch] does, kind by kind. *)
Lemma dispatch_SQL (e : Elem) (pv : list string) (h : trace) :
  pgengine.Kind e = "SQL" ->
  dispatch w e pv h =
    (Some (0, EmptyString, oExecuteSQLTask w h e pv), [EExecuteSQLTask e pv]).
Proof. intros Hk. unfold dispatch. rewrite Hk. reflexivity. Qed.

Lemma dispatch_SHELL (e : Elem) (pv : list string) (h : trace) :
  pgengine.Kind e = "SHELL" -> NoShellTasks w = false ->
  dispatch w e pv h =
    (Some (oExecuteShellCommand w h (pgengine.Script e) pv),
     [EExecuteShellCommand (pgengine.Script e) pv]).
Proof. intros Hk Hn. unfold dispatch. rewrite Hk, Hn. reflexivity. Qed.

Lemma dispatch_SHELL_disabled (e : Elem) (pv : list string) (h : trace) :
  pgengine.Kind e = "SHELL" -> NoShellTasks w = true ->
  dispatch w e pv h = (None, [ELogToDB "LOG" "Shell task execution skipped: "]).
Proof. intros Hk Hn. unfold dispatch. rewrite Hk, Hn. reflexivity. Qed.

Lemma dispatch_BUILTIN (e : Elem) (pv : list string) (h : trace) :
  pgengine.Kind e = "BUILTIN" ->
  dispatch w e pv h =
    (Some (0, EmptyString, oExecuteTask w h (pgengine.TaskName e) pv),
     [EExecuteTask (pgengine.TaskName e) pv]).
Proof. intros Hk. unfold dispatch. rewrite Hk. reflexivity. Qed.

Lemma dispatch_other (e : Elem) (pv : list string) (h : trace) :
  pgengine.Kind e <> "SQL" -> pgengine.Kind e <> "SHELL" ->
  pgengine.Kind e <> "BUILTIN" ->
  dispatch w e pv h = (Some (0, EmptyString, None), []).
Proof.
  intros H1 H2 H3. unfold dispatch.
  apply String.eqb_neq in H1, H2, H3. rewrite H1, H2, H3. reflexivity.
Qed.

(** An element of no known kind whose parameters resolve: nothing is
    executed, the (empty) execution is logged and the code is 0. *)
Lemma executeChainElement_other (e : Elem) (h : trace) (pv : list string) :
  pgengine.Kind e <> "SQL" -> pgengine.Kind e <> "SHELL" ->
  pgengine.Kind e <> "BUILTIN" ->
  oGetChainParamValues w (h ++ [ELogToDB "DEBUG" "Executing task: %s"]) e = Some pv ->
  exists e2,
    pgengine.IgnoreError e2 = pgengine.IgnoreError e /\
    executeChainElement w e h =
      (0, e2, [ELogToDB "DEBUG" "Executing task: %s";
               EGetChainParamValues e true;
               ELogChainElementExecution e2 0 EmptyString;
               ELogToDB "DEBUG" "Task executed successfully: %s"]).
Proof.
  intros H1 H2 H3 Hpv.
  rewrite (executeChainElement_resolved e h pv Hpv). cbv zeta.
  rewrite dispatch_other by assumption. cbn.
  eexists. split; [|reflexivity]. reflexivity.
Qed.

(** C5: for a dispatched element (its parameters resolved, the backend
    answered with a code, an output and an error or none), an error makes
    the result code non-zero: the backend's code when that is non-zero,
    -1 when the error comes with code 0.  Without an error the result code
    is 0. *)
Theorem dispatched_result_code (e : Elem) (h : trace) (pv : list string)
    (retCode : Z) (out : string) (err : error) (evs : list event) :
  oGetChainParamValues w (h ++ [ELogToDB "DEBUG" "Executing task: %s"]) e = Some pv ->
  dispatch w (stamped w e h) pv (resolved e h) = (Some (retCode, out, err), evs) ->
  (err <> None -> resultCode w e h <> 0) /\
  (err <> None -> retCode <> 0 -> resultCode w e h = retCode) /\
  (err <> None -> retCode = 0 -> resultCode w e h = -1) /\
  (err = None -> resultCode w e h = 0).
Proof.
  intros Hpv Hd. unfold resultCode.
  rewrite (executeChainElement_resolved e h pv Hpv). cbv zeta. rewrite Hd.
  destruct err as [msg|]; cbn [fst].
  - destruct (Z.eqb_spec retCode 0) as [Hz|Hz].
    + repeat split; intros; try lia; congruence.
    + repeat split; intros; try lia; congruence.
  - repeat split; intros; congruence.
Qed.

(** C8: a SHELL element met while shell execution is disabled yields -1,
    and no task backend (so no external command) is called. *)
Theorem shell_disabled_short_circuit (e : Elem) (h : trace) :
  pgengine.Kind e = "SHELL" -> NoShellTasks w = true ->
  resultCode w e h = -1 /\
  existsb isBackendCall (snd (executeChainElement w e h)) = false.
Proof.
  intros Hk Hn. unfold resultCode.
  destruct (oGetChainParamValues w (h ++ [ELogToDB "DEBUG" "Executing task: %s"]) e)
    as [pv|] eqn:Hpv.
  - rewrite (executeChainElement_resolved e h pv Hpv). cbv zeta.
    rewrite dispatch_SHELL_disabled by (rewrite ?stamped_Kind; assumption).
    split; reflexivity.
  - rewrite (executeChainElement_unresolved e h Hpv). split; reflexivity.
Qed.

End Dispatch.

(** ** executeChain *)

Lemma statusLabels_app (a b : list event) :
  statusLabels (a ++ b) = statusLabels a ++ statusLabels b.
Proof.
  induction a as [|ev a IH]; [reflexivity|].
  destruct ev; cbn; rewrite ?IH; reflexivity.
Qed.

Lemma enteredElements_app (a b : list event) :
  enteredElements (a ++ b) = enteredElements a ++ enteredElements b.
Proof.
  induction a as [|ev a IH]; [reflexivity|].
  destruct ev; cbn; rewrite ?IH; reflexivity.
Qed.

Lemma existsb_isBackendCall_app (a b : list event) :
  existsb isBackendCall (a ++ b) =
  existsb isBackendCall a || existsb isBackendCall b.
Proof. apply existsb_app. Qed.

Section Executor.

Variable w : World.

(** What the dispatcher leaves in the trace: no status update, and one
    request for parameter values. *)
Lemma dispatch_statusLabels (e : Elem) (pv : list string) (h : trace) :
  statusLabels (snd (dispatch w e pv h)) = [] /\
  enteredElements (snd (dispatch w e pv h)) = [].
Proof.
  unfold dispatch.
  destruct (pgengine.Kind e =? "SQL")%string; [split; reflexivity|].
  destruct (pgengine.Kind e =? "SHELL")%string.
  - destruct (NoShellTasks w); split; reflexivity.
  - destruct (pgengine.Kind e =? "BUILTIN")%string; split; reflexivity.
Qed.

Lemma executeChainElement_trace (e : Elem) (h : trace) :
  statusLabels (snd (executeChainElement w e h)) = [] /\
  enteredElements (snd (executeChainElement w e h)) = [e] /\
  pgengine.IgnoreError (snd (fst (executeChainElement w e h))) =
    pgengine.IgnoreError e.
Proof.
  destruct (oGetChainParamValues w (h ++ [ELogToDB "DEBUG" "Executing task: %s"]) e)
    as [pv|] eqn:Hpv.
  - rewrite (executeChainElement_resolved w e h pv Hpv). cbv zeta.
    destruct (dispatch_statusLabels (stamped w e h) pv (resolved e h)) as [Hs He].
    destruct (dispatch w (stamped w e h) pv (resolved e h))
      as [[[[retCode out] [msg|]]|] evs]; cbn [snd fst] in *;
      rewrite ?statusLabels_app, ?enteredElements_app; cbn;
      rewrite ?statusLabels_app, ?enteredElements_app, ?Hs, ?He;
      repeat split; reflexivity.
  - rewrite (executeChainElement_unresolved w e h Hpv). repeat split; reflexivity.
Qed.

(** One turn of the loop. *)
Lemma executeChainElements_cons (cfg id rid : Z) (e : Elem)
      (rest : list Elem) (h : trace) :
  executeChainElements w cfg id rid (e :: rest) h =
    let e0 := pgengine.setChainConfig e cfg in
    let started := [EUpdateChainRunStatus e0 rid "STARTED"] in
    let '(retCode, e1, evs) := executeChainElement w e0 (h ++ started) in
    if negb (retCode =? 0) && negb (pgengine.IgnoreError e1) then
      (false, started ++ evs ++
              [ELogToDB "ERROR" "Chain ID: %d failed";
               EUpdateChainRunStatus e1 rid "CHAIN_FAILED";
               EMustRollbackTransaction])
    else
      let done := started ++ evs ++ [EUpdateChainRunStatus e1 rid "CHAIN_DONE"] in
      let (b, evs') := executeChainElements w cfg id rid rest (h ++ done) in
      (b, done ++ evs').
Proof.
  cbn [executeChainElements].
  unfold bind at 1. unfold UpdateChainRunStatus at 1. unfold emit at 1.
  unfold bind at 1.
  destruct (executeChainElement w _ _) as [[retCode e1] evs].
  destruct (negb (retCode =? 0) && negb (pgengine.IgnoreError e1)).
  - cbn. flatten. reflexivity.
  - unfold bind, UpdateChainRunStatus, emit. flatten.
    destruct (executeChainElements w cfg id rid rest _) as [b evs'].
    flatten. reflexivity.
Qed.

(** The loop over a concatenation: the second part runs only if the first
    ran off its end, and then sees the events of the first. *)
Lemma executeChainElements_app (cfg id rid : Z) (pre post : list Elem) :
  forall h,
    executeChainElements w cfg id rid (pre ++ post) h =
      let (b, evs1) := executeChainElements w cfg id rid pre h in
      if b then
        let (b', evs2) := executeChainElements w cfg id rid post (h ++ evs1) in
        (b', evs1 ++ evs2)
      else (false, evs1).
Proof.
  induction pre as [|e pre IH]; intros h.
  - cbn. rewrite app_nil_r.
    destruct (executeChainElements w cfg id rid post h); reflexivity.
  - rewrite <- app_comm_cons, !executeChainElements_cons. cbv zeta.
    destruct (executeChainElement w _ _) as [[retCode e1] evs].
    destruct (negb (retCode =? 0) && negb (pgengine.IgnoreError e1));
      [reflexivity|].
    rewrite IH.
    destruct (executeChainElements w cfg id rid pre _) as [[|] evs1].
    + rewrite <- !app_assoc.
      destruct (executeChainElements w cfg id rid post _) as [b' evs2].
      rewrite <- !app_assoc. reflexivity.
    + reflexivity.
Qed.

(** A loop that ran off its end entered every element, in order. *)
Lemma executeChainElements_entered (cfg id rid : Z) (elems : list Elem) :
  forall h evs,
    executeChainElements w cfg id rid elems h = (true, evs) ->
    enteredElements evs = map (fun e => pgengine.setChainConfig e cfg) elems.
Proof.
  induction elems as [|e elems IH]; intros h evs Hrun.
  - cbn in Hrun. injection Hrun as <-. reflexivity.
  - rewrite executeChainElements_cons in Hrun. cbv zeta in Hrun.
    destruct (executeChainElement_trace (pgengine.setChainConfig e cfg)
                (h ++ [EUpdateChainRunStatus (pgengine.setChainConfig e cfg) rid "STARTED"]))
      as (_ & Hent & _).
    destruct (executeChainElement w _ _) as [[retCode e1] evs0].
    cbn [snd] in Hent.
    destruct (negb (retCode =? 0) && negb (pgengine.IgnoreError e1));
      [discriminate|].
    destruct (executeChainElements w cfg id rid elems _) as [b evs'] eqn:Hrest.
    injection Hrun as -> <-.
    apply IH in Hrest. cbn [app enteredElements].
    rewrite !enteredElements_app, Hent, Hrest. reflexivity.
Qed.

(** *** The whole run *)

Lemma executeChain_not_fetched (cfg id : Z) (h : trace) :
  oStartTransaction w h = None ->
  oGetChainElements w (h ++ opening) id = None ->
  executeChain w cfg id h =
    (tt, opening ++ [EGetChainElements id false; EMustRollbackTransaction]).
Proof.
  intros Htx Hget.
  unfold executeChain, bind, StartTransaction, GetChainElements, call,
    LogToDB, MustRollbackTransaction, emit.
  rewrite Htx. cbn [isNil]. flatten.
  unfold opening, startingChain in Hget. rewrite Hget. reflexivity.
Qed.

Lemma executeChain_fetched (cfg id : Z) (h : trace) (elems : list Elem) :
  oStartTransaction w h = None ->
  oGetChainElements w (h ++ opening) id = Some elems ->
  executeChain w cfg id h =
    let rid := runStatusID w cfg id h in
    let (finished, evs) :=
      executeChainElements w cfg id rid elems (h ++ header w cfg id h) in
    (tt, header w cfg id h ++ evs ++
         (if finished then closing cfg id rid else [])).
Proof.
  intros Htx Hget.
  unfold executeChain, bind, StartTransaction, GetChainElements,
    InsertChainRunStatus, call, LogToDB, UpdateChainRunStatus,
    MustCommitTransaction, emit, ret.
  rewrite Htx. cbn [isNil]. flatten.
  unfold header, runStatusID, opening, startingChain in *.
  rewrite Hget. cbn [isSome app]. flatten.
  destruct (executeChainElements w cfg id _ elems _) as [[|] evs];
    cbn; flatten; reflexivity.
Qed.

(** C3: when the fetch of the chain's elements fails, the run rolls the
    transaction back and stops; no chain run header is inserted. *)
Theorem fetch_failure_writes_no_header (cfg id : Z) (h : trace) :
  oStartTransaction w h = None ->
  oGetChainElements w (h ++ opening) id = None ->
  snd (executeChain w cfg id h) =
    [EStartTransaction true; ELogToDB "LOG" startingChain;
     EGetChainElements id false; EMustRollbackTransaction] /\
  existsb isInsertChainRunStatus (snd (executeChain w cfg id h)) = false.
Proof.
  intros Htx Hget.
  rewrite (executeChain_not_fetched cfg id h Htx Hget).
  split; reflexivity.
Qed.

(** C4: a chain without elements is recorded CHAIN_DONE and committed; no
    element is entered and no task backend is called. *)
Theorem empty_chain_commits (cfg id : Z) (h : trace) :
  oStartTransaction w h = None ->
  oGetChainElements w (h ++ opening) id = Some [] ->
  snd (executeChain w cfg id h) =
    [EStartTransaction true; ELogToDB "LOG" startingChain;
     EGetChainElements id true;
     EInsertChainRunStatus cfg id (runStatusID w cfg id h);
     ELogToDB "LOG" "Executed successfully chain ID: %d; configuration ID: %d";
     EUpdateChainRunStatus (chainHeader cfg id) (runStatusID w cfg id h) "CHAIN_DONE";
     EMustCommitTransaction] /\
  enteredElements (snd (executeChain w cfg id h)) = [] /\
  existsb isBackendCall (snd (executeChain w cfg id h)) = false.
Proof.
  intros Htx Hget.
  rewrite (executeChain_fetched cfg id h [] Htx Hget).
  repeat split; reflexivity.
Qed.

(** C1: when the element at some position comes back with a non-zero code
    and its ignoreError is false, the run is recorded CHAIN_FAILED, the
    transaction is rolled back, these are the last events of the run, and
    the elements entered are exactly those up to that position. *)
Theorem unignored_failure_fails_chain (cfg id : Z) (h : trace)
    (pre : list Elem) (e : Elem) (post : list Elem)
    (evs1 : list event) (retCode : Z) (e1 : Elem) (evs : list event) :
  let rid := runStatusID w cfg id h in
  let e0 := pgengine.setChainConfig e cfg in
  let started := EUpdateChainRunStatus e0 rid "STARTED" in
  oStartTransaction w h = None ->
  oGetChainElements w (h ++ opening) id = Some (pre ++ e :: post) ->
  executeChainElements w cfg id rid pre (h ++ header w cfg id h) = (true, evs1) ->
  executeChainElement w e0 (h ++ header w cfg id h ++ evs1 ++ [started])
    = (retCode, e1, evs) ->
  retCode <> 0 ->
  pgengine.IgnoreError e = false ->
  snd (executeChain w cfg id h) =
    header w cfg id h ++ evs1 ++ [started] ++ evs ++
    [ELogToDB "ERROR" "Chain ID: %d failed";
     EUpdateChainRunStatus e1 rid "CHAIN_FAILED";
     EMustRollbackTransaction] /\
  enteredElements (snd (executeChain w cfg id h)) =
    map (fun x => pgengine.setChainConfig x cfg) (pre ++ [e]).
Proof.
  intros rid e0 started Htx Hget Hpre Hrun Hcode Hign.
  rewrite (executeChain_fetched cfg id h _ Htx Hget). cbv zeta.
  fold rid. rewrite executeChainElements_app, Hpre.
  rewrite executeChainElements_cons. cbv zeta. fold e0.
  replace (((h ++ header w cfg id h) ++ evs1) ++ [EUpdateChainRunStatus e0 rid "STARTED"])
    with (h ++ header w cfg id h ++ evs1 ++ [started])
    by (rewrite <- !app_assoc; reflexivity).
  destruct (executeChainElement_trace e0 (h ++ header w cfg id h ++ evs1 ++ [started]))
    as (_ & Hent & Hie).
  rewrite Hrun in *. cbn [fst snd] in *.
  assert (Hfail : negb (retCode =? 0) && negb (pgengine.IgnoreError e1) = true).
  { rewrite Hie. unfold e0. cbn [pgengine.IgnoreError pgengine.setChainConfig].
    rewrite Hign. apply Z.eqb_neq in Hcode. rewrite Hcode. reflexivity. }
  rewrite Hfail. cbn [snd]. flatten. split; [reflexivity|].
  rewrite !enteredElements_app, map_app.
  rewrite (executeChainElements_entered cfg id rid pre _ _ Hpre).
  cbn [enteredElements app]. rewrite !enteredElements_app, Hent.
  reflexivity.
Qed.

(** C2, as the code has it: an element the executor reaches is first
    recorded STARTED; the dispatch writes no status; the next status
    written for it is CHAIN_FAILED when the code is non-zero and the error
    is not ignored, and CHAIN_DONE otherwise, so also for an ignored
    failure. *)
Theorem element_status_sequence (cfg id rid : Z) (h : trace)
    (pre : list Elem) (e : Elem) (post : list Elem)
    (evs1 : list event) (retCode : Z) (e1 : Elem) (evs : list event) :
  let e0 := pgengine.setChainConfig e cfg in
  let started := EUpdateChainRunStatus e0 rid "STARTED" in
  executeChainElements w cfg id rid pre h = (true, evs1) ->
  executeChainElement w e0 (h ++ evs1 ++ [started]) = (retCode, e1, evs) ->
  statusLabels evs = [] /\
  (exists mid rest,
     snd (executeChainElements w cfg id rid (pre ++ e :: post) h) =
       evs1 ++ [started] ++ evs ++ mid ++
       [EUpdateChainRunStatus e1 rid (closingLabel retCode e)] ++ rest /\
     statusLabels mid = [] /\ existsb isBackendCall mid = false) /\
  (retCode = 0 -> closingLabel retCode e = "CHAIN_DONE") /\
  (retCode <> 0 -> pgengine.IgnoreError e = true ->
   closingLabel retCode e = "CHAIN_DONE") /\
  (retCode <> 0 -> pgengine.IgnoreError e = false ->
   closingLabel retCode e = "CHAIN_FAILED").
Proof.
  intros e0 started Hpre Hrun.
  destruct (executeChainElement_trace e0 (h ++ evs1 ++ [started]))
    as (Hst & _ & Hie).
  rewrite Hrun in Hst, Hie. cbn [fst snd] in Hst, Hie.
  change (pgengine.IgnoreError e0) with (pgengine.IgnoreError e) in Hie.
  split; [exact Hst|]. split.
  - rewrite executeChainElements_app, Hpre.
    rewrite executeChainElements_cons. cbv zeta. fold e0.
    replace ((h ++ evs1) ++ [EUpdateChainRunStatus e0 rid "STARTED"])
      with (h ++ evs1 ++ [started])
      by (rewrite <- !app_assoc; reflexivity).
    rewrite Hrun. unfold closingLabel. rewrite <- Hie.
    destruct (negb (retCode =? 0) && negb (pgengine.IgnoreError e1)).
    + exists [ELogToDB "ERROR" "Chain ID: %d failed"], [EMustRollbackTransaction].
      cbn [snd]. flatten. repeat split; reflexivity.
    + destruct (executeChainElements w cfg id rid post _) as [b rest].
      exists [], rest. cbn [snd]. flatten. repeat split; reflexivity.
  - unfold closingLabel. repeat split.
    + intros ->. reflexivity.
    + intros _ ->. rewrite andb_false_r. reflexivity.
    + intros Hc ->. apply Z.eqb_neq in Hc. rewrite Hc. reflexivity.
Qed.

(** C10: an element whose kind is none of SQL, SHELL and BUILTIN, once its
    parameters are resolved, calls no task backend and comes back with
    code 0; it is recorded like a success and the loop goes on with the
    next element. *)
Theorem unknown_kind_is_success (cfg id rid : Z) (h : trace)
    (e : Elem) (rest : list Elem) (pv : list string) :
  let e0 := pgengine.setChainConfig e cfg in
  let h1 := h ++ [EUpdateChainRunStatus e0 rid "STARTED"] in
  pgengine.Kind e <> "SQL" ->
  pgengine.Kind e <> "SHELL" ->
  pgengine.Kind e <> "BUILTIN" ->
  oGetChainParamValues w (h1 ++ [ELogToDB "DEBUG" "Executing task: %s"]) e0
    = Some pv ->
  resultCode w e0 h1 = 0 /\
  existsb isBackendCall (snd (executeChainElement w e0 h1)) = false /\
  exists e2 : Elem,
    let turn := [EUpdateChainRunStatus e0 rid "STARTED";
                 ELogToDB "DEBUG" "Executing task: %s";
                 EGetChainParamValues e0 true;
                 ELogChainElementExecution e2 0 EmptyString;
                 ELogToDB "DEBUG" "Task executed successfully: %s";
                 EUpdateChainRunStatus e2 rid "CHAIN_DONE"] in
    executeChainElements w cfg id rid (e :: rest) h =
      (let (b, evs) := executeChainElements w cfg id rid rest (h ++ turn) in
       (b, turn ++ evs)).
Proof.
  intros e0 h1 H1 H2 H3 Hpv.
  destruct (executeChainElement_other w e0 h1 pv H1 H2 H3 Hpv) as (e2 & Hie & Hrun).
  unfold resultCode. rewrite Hrun. cbn [fst snd].
  split; [reflexivity|]. split; [reflexivity|].
  exists e2. cbv zeta.
  rewrite executeChainElements_cons. cbv zeta. fold e0. fold h1.
  rewrite Hrun. cbn [negb Z.eqb andb app]. reflexivity.
Qed.

End Executor.

(** ** retriveChainsAndRun *)

Section Poller.

Variable w : World.

Lemma sendChains_cons (count : Z) (c : Chain) (rest : list Chain) (h : trace) :
  sendChains count (c :: rest) h =
    let turn :=
      (if count >? maxChainsThreshold then [ESleep (smoothingDelay count)] else [])
      ++ [ELogToDB "DEBUG" "Putting head chain %s to the execution channel";
          ESend c] in
    let (u, evs) := sendChains count rest (h ++ turn) in
    (u, turn ++ evs).
Proof.
  cbn [sendChains]. unfold bind, LogToDB, emit, ret, smoothingDelay.
  destruct (count >? maxChainsThreshold); flatten;
    destruct (sendChains count rest _) as [u evs]; flatten; reflexivity.
Qed.

(** The sleeps and sends of the hand-over loop, in order. *)
Lemma sendChains_pace (count : Z) (chains : list Chain) :
  forall h,
    filter isSleepOrSend (snd (sendChains count chains h)) =
      if count >? maxChainsThreshold
      then flat_map (fun c => [ESleep (smoothingDelay count); ESend c]) chains
      else map ESend chains.
Proof.
  induction chains as [|c chains IH]; intros h.
  - destruct (count >? maxChainsThreshold); reflexivity.
  - rewrite sendChains_cons. cbv zeta.
    specialize (IH (h ++ (if count >? maxChainsThreshold
                          then [ESleep (smoothingDelay count)] else [])
                      ++ [ELogToDB "DEBUG" "Putting head chain %s to the execution channel";
                          ESend c])).
    destruct (sendChains count chains _) as [u evs]. cbn [snd] in *.
    rewrite !filter_app, IH.
    destruct (count >? maxChainsThreshold); reflexivity.
Qed.

Lemma retriveChainsAndRun_rows (sql : string) (h : trace) (headChains : list Chain) :
  oSelectContext w h sql (ClientName w) = inl headChains ->
  snd (retriveChainsAndRun w sql h) =
    [ESelectContext sql (ClientName w) true;
     ELogToDB "LOG" "Number of chains to be executed: "] ++
    snd (sendChains (Z.of_nat (List.length headChains)) headChains
           (h ++ [ESelectContext sql (ClientName w) true;
                  ELogToDB "LOG" "Number of chains to be executed: "])).
Proof.
  intros Hrows.
  unfold retriveChainsAndRun, bind, call, LogToDB, emit.
  rewrite Hrows. cbn [isRows]. flatten.
  destruct (sendChains _ headChains _) as [u evs]. reflexivity.
Qed.

(** C7: the threshold is 16 * 60 = 960.  When a cycle fetched more chains
    than that, every send is preceded by a sleep of 60 * 1000 / count
    milliseconds (the quotient rounded down), so one such sleep separates
    any two consecutive sends; at or below the threshold the chains are
    sent with no sleep at all. *)
Theorem burst_smoothing (sql : string) (h : trace) (headChains : list Chain) :
  let count := Z.of_nat (List.length headChains) in
  let paced := filter isSleepOrSend (snd (retriveChainsAndRun w sql h)) in
  oSelectContext w h sql (ClientName w) = inl headChains ->
  maxChainsThreshold = 960 /\
  (count > 960 ->
   paced = flat_map (fun c => [ESleep (60 * 1000 / count * Millisecond); ESend c])
                    headChains) /\
  (count <= 960 -> paced = map ESend headChains).
Proof.
  intros count paced Hrows. subst paced.
  rewrite (retriveChainsAndRun_rows sql h headChains Hrows).
  rewrite filter_app. cbn [filter isSleepOrSend app].
  rewrite sendChains_pace. fold count.
  split; [reflexivity|]. split; intros Hc.
  - change maxChainsThreshold with 960.
    destruct (Z.gtb_spec count 960) as [_|Hle]; [|lia].
    unfold smoothingDelay. change (refetchTimeout * 1000) with (60 * 1000).
    rewrite Z.quot_div_nonneg by lia. reflexivity.
  - change maxChainsThreshold with 960.
    destruct (Z.gtb_spec count 960) as [Hgt|_]; [lia|]. reflexivity.
Qed.

End Poller.

(** ** chainWorker *)

Lemma storeAfter_deleted (configs : list Z) (evs : list event) (c : Z) :
  ~ In c (storeAfter configs (evs ++ [EDeleteChainConfig c])).
Proof.
  unfold storeAfter. rewrite fold_left_app. cbn.
  intros Hin. apply filter_In in Hin. destruct Hin as [_ Hne].
  rewrite Z.eqb_refl in Hne. discriminate.
Qed.

Section Worker.

Variable w : World.

(** One chain taken from the channel. *)
Lemma chainWorker_cons (fuel : nat) (chain : Chain) (rest : list Chain)
      (h : trace) :
  chainWorker w fuel (chain :: rest) h =
    match waitForAdmission w fuel chain (h ++ [calling]) with
    | None => None
    | Some (false, evs1) => Some (tt, [calling] ++ evs1)
    | Some (true, evs1) =>
        let run := snd (executeChain w (ChainExecutionConfigID chain)
                          (ChainID chain) (h ++ [calling] ++ evs1)) in
        let turn := [calling] ++ evs1 ++ run ++
                    (if SelfDestruct chain
                     then [EDeleteChainConfig (ChainExecutionConfigID chain)]
                     else []) in
        match chainWorker w fuel rest (h ++ turn) with
        | None => None
        | Some (u, evs') => Some (u, turn ++ evs')
        end
    end.
Proof.
  cbn [chainWorker]. unfold bindF at 1. unfold lift at 1.
  unfold LogToDB at 1. unfold emit at 1. fold calling.
  unfold bindF at 1.
  destruct (waitForAdmission w fuel chain (h ++ [calling]))
    as [[[|] evs1]|]; [| |reflexivity].
  - unfold bindF, lift, bind, DeleteChainConfig, emit, ret. cbv zeta.
    rewrite <- !app_assoc.
    destruct (executeChain w _ _ (h ++ [calling] ++ evs1)) as [u run].
    cbn [snd].
    destruct (SelfDestruct chain); flatten;
      destruct (chainWorker w fuel rest _) as [[u' evs']|]; flatten;
      reflexivity.
  - unfold retF. flatten. reflexivity.
Qed.

(** A chain that may proceed at the first probe. *)
Lemma waitForAdmission_now (fuel : nat) (chain : Chain) (h : trace) :
  oCanProceedChainExecution w h (ChainExecutionConfigID chain)
    (MaxInstances chain) = true ->
  waitForAdmission w (S fuel) chain h =
    Some (true, [ECanProceedChainExecution (ChainExecutionConfigID chain)
                   (MaxInstances chain) true]).
Proof.
  intros Hok. cbn [waitForAdmission].
  unfold bindF, lift, CanProceedChainExecution, call, retF.
  rewrite Hok. reflexivity.
Qed.

(** C6, as the code has it: once a selfDestruct configuration may proceed,
    the worker runs its chain and then deletes the configuration, whatever
    the run did; with the delete the configuration is gone from the store,
    hence from every later eligible set. *)
Theorem self_destruct_after_run (fuel : nat) (chain : Chain)
    (rest : list Chain) (h : trace) (evs1 : list event) (configs : list Z) :
  let cfg := ChainExecutionConfigID chain in
  let run := snd (executeChain w cfg (ChainID chain) (h ++ [calling] ++ evs1)) in
  let turn := [calling] ++ evs1 ++ run ++ [EDeleteChainConfig cfg] in
  SelfDestruct chain = true ->
  waitForAdmission w fuel chain (h ++ [calling]) = Some (true, evs1) ->
  chainWorker w fuel (chain :: rest) h =
    match chainWorker w fuel rest (h ++ turn) with
    | None => None
    | Some (u, evs') => Some (u, turn ++ evs')
    end /\
  ~ In cfg (storeAfter configs (h ++ turn)).
Proof.
  intros cfg run turn Hsd Hgate. split.
  - rewrite chainWorker_cons, Hgate. cbv zeta. rewrite Hsd. reflexivity.
  - unfold turn.
    replace (h ++ [calling] ++ evs1 ++ run ++ [EDeleteChainConfig cfg])
      with ((h ++ [calling] ++ evs1 ++ run) ++ [EDeleteChainConfig cfg])
      by (rewrite <- !app_assoc; reflexivity).
    apply storeAfter_deleted.
Qed.

End Worker.

(** ** Run *)

Section Engine.

Variable w : World.

Lemma runDeferred_trace (n : nat) (h : trace) :
  runDeferred n h = (tt, repeat ECancel n).
Proof.
  revert h. induction n as [|n IH]; intros h; [reflexivity|].
  cbn [runDeferred]. unfold bind, emit. rewrite IH. reflexivity.
Qed.

(** Every way the lock loop ends is one of [LockLoop]. *)
Lemma lockClientName_sound (fuel : nat) :
  forall h locked evs,
    lockClientName w fuel h = Some (locked, evs) -> LockLoop w h locked evs.
Proof.
  induction fuel as [|fuel IH]; intros h locked evs Hrun; [discriminate|].
  cbn [lockClientName] in Hrun.
  unfold bindF at 1 in Hrun. unfold lift at 1 in Hrun.
  unfold TryLockClientName, call in Hrun.
  destruct (oTryLockClientName w h) eqn:Hprobe.
  - inversion Hrun; subst. apply lock_taken. exact Hprobe.
  - unfold bindF at 1 in Hrun. unfold lift at 1 in Hrun.
    unfold select, call in Hrun.
    destruct (oSelect w (h ++ [ETryLockClientName false])) eqn:Hwait.
    + destruct (lockClientName w fuel _) as [[locked' evs']|] eqn:Hrec;
        [|discriminate].
      inversion Hrun; subst. rewrite <- app_assoc in Hrec.
      exact (lock_again w h locked evs' Hprobe Hwait (IH _ _ _ Hrec)).
    + unfold bindF, lift, LogToDB, emit, retF in Hrun.
      inversion Hrun; subst.
      exact (lock_cancelled w h Hprobe Hwait).
Qed.

(** Each of them is taken, with any fuel from some amount on. *)
Lemma lockClientName_complete (h : trace) (locked : bool) (evs : list event) :
  LockLoop w h locked evs ->
  exists fuel, forall k, lockClientName w (fuel + k) h = Some (locked, evs).
Proof.
  induction 1 as [h Hprobe|h Hprobe Hwait|h locked evs Hprobe Hwait _ IH].
  - exists 1%nat. intros k. cbn [Nat.add lockClientName].
    unfold bindF, lift, TryLockClientName, call, retF.
    rewrite Hprobe. reflexivity.
  - exists 1%nat. intros k. cbn [Nat.add lockClientName].
    unfold bindF at 1. unfold lift at 1. unfold TryLockClientName, call.
    rewrite Hprobe.
    unfold bindF at 1. unfold lift at 1. unfold select, call.
    rewrite Hwait. reflexivity.
  - destruct IH as [fuel Hfuel]. exists (S fuel). intros k.
    cbn [Nat.add lockClientName].
    unfold bindF at 1. unfold lift at 1. unfold TryLockClientName, call.
    rewrite Hprobe.
    unfold bindF at 1. unfold lift at 1. unfold select, call.
    rewrite Hwait, <- app_assoc.
    change ([ETryLockClientName false] ++ [ESelect (refetchTimeout * Second) TimerFired])
      with lockWait.
    rewrite (Hfuel k). reflexivity.
Qed.




Lemma pollLoop_sound (fuel : nat) :
  forall h status evs,
    pollLoop w fuel h = Some (status, evs) -> PollLoop w h status evs.
Proof.
  induction fuel as [|fuel IH]; intros h status evs Hrun; [discriminate|].
  cbn [pollLoop] in Hrun.
  unfold bindF at 1 in Hrun.
  destruct (pollBody w h) as [[[] body]|] eqn:Hbody; [|discriminate].
  unfold bindF at 1 in Hrun. unfold lift at 1 in Hrun.
  unfold select, call in Hrun.
  destruct (oSelect w (h ++ body)) eqn:Hwait.
  - unfold bindF at 1 in Hrun. unfold lift at 1 in Hrun.
    unfold IsAlive, call in Hrun. rewrite <- app_assoc in Hrun.
    destruct (oIsAlive w (h ++ body ++ [ESelect (refetchTimeout * Second) TimerFired]))
      eqn:Halive.
    + destruct (pollLoop w fuel _) as [[status' evs']|] eqn:Hrec;
        [|discriminate].
      inversion Hrun; subst. rewrite <- !app_assoc in Hrec.
      exact (poll_again w h body status evs' Hbody Hwait Halive (IH _ _ _ Hrec)).
    + unfold retF in Hrun. inversion Hrun; subst.
      exact (poll_dropped w h body Hbody Hwait Halive).
  - unfold bindF, lift, LogToDB, emit, retF in Hrun.
    inversion Hrun; subst.
    exact (poll_cancelled w h body Hbody Hwait).
Qed.

Lemma pollLoop_complete (h : trace) (status : RunStatus) (evs : list event) :
  PollLoop w h status evs ->
  exists fuel, forall k, pollLoop w (fuel + k) h = Some (status, evs).
Proof.
  induction 1 as [h body Hbody Hwait|h body Hbody Hwait Halive
                 |h body status evs Hbody Hwait Halive _ IH].
  - exists 1%nat. intros k. cbn [Nat.add pollLoop].
    unfold bindF at 1. rewrite Hbody.
    unfold bindF at 1. unfold lift at 1. unfold select, call.
    rewrite Hwait. reflexivity.
  - exists 1%nat. intros k. cbn [Nat.add pollLoop].
    unfold bindF at 1. rewrite Hbody.
    unfold bindF at 1. unfold lift at 1. unfold select, call.
    rewrite Hwait.
    unfold bindF at 1. unfold lift at 1. unfold IsAlive, call.
    rewrite <- app_assoc. unfold pollWait in Halive. rewrite Halive.
    reflexivity.
  - destruct IH as [fuel Hfuel]. exists (S fuel). intros k.
    cbn [Nat.add pollLoop].
    unfold bindF at 1. rewrite Hbody.
    unfold bindF at 1. unfold lift at 1. unfold select, call.
    rewrite Hwait.
    unfold bindF at 1. unfold lift at 1. unfold IsAlive, call.
    rewrite <- app_assoc. unfold pollWait in Halive. rewrite Halive.
    rewrite <- !app_assoc.
    change ([ESelect (refetchTimeout * Second) TimerFired] ++ [EIsAlive true])
      with aliveEnd.
    rewrite (Hfuel k). reflexivity.
Qed.

(** Every return of [Run] is one of [Returns]. *)
Lemma Run_sound (fuel : nat) (h : trace) (status : RunStatus)
      (evs : list event) :
  Run w fuel h = Some (status, evs) -> Returns w h status evs.
Proof.
  unfold Run. intros Hrun. unfold bindF at 1 in Hrun.
  destruct (lockClientName w fuel h) as [[[|] evs0]|] eqn:Hlock;
    [| |discriminate].
  - apply lockClientName_sound in Hlock.
    unfold bindF at 1 in Hrun.
    destruct (startUp w (h ++ evs0)) as [[[] evs1]|] eqn:Hstart; [|discriminate].
    unfold bindF at 1 in Hrun.
    destruct (pollLoop w fuel _) as [[status' evs2]|] eqn:Hpoll; [|discriminate].
    apply pollLoop_sound in Hpoll. rewrite <- app_assoc in Hpoll.
    unfold bindF, lift, retF in Hrun. rewrite runDeferred_trace in Hrun.
    inversion Hrun; subst.
    exact (left_poll_loop w h evs0 evs1 evs2 status Hlock Hstart Hpoll).
  - apply lockClientName_sound in Hlock.
    unfold retF in Hrun. inversion Hrun; subst. rewrite app_nil_r.
    apply cancelled_at_lock. exact Hlock.
Qed.

(** Each of them is taken, with any fuel from some amount on. *)
Lemma Run_complete (h : trace) (status : RunStatus) (evs : list event) :
  Returns w h status evs ->
  exists fuel, forall k, Run w (fuel + k) h = Some (status, evs).
Proof.
  intros [evs0 Hlock|evs0 evs1 evs2 status' Hlock Hstart Hpoll].
  - destruct (lockClientName_complete _ _ _ Hlock) as [fuel Hfuel].
    exists fuel. intros k. unfold Run, bindF. rewrite (Hfuel k).
    unfold retF. rewrite app_nil_r. reflexivity.
  - destruct (lockClientName_complete _ _ _ Hlock) as [f1 Hf1].
    destruct (pollLoop_complete _ _ _ Hpoll) as [f2 Hf2].
    exists (f1 + f2)%nat. intros k. unfold Run.
    unfold bindF at 1.
    replace (f1 + f2 + k)%nat with (f1 + (f2 + k))%nat at 1 by lia.
    rewrite (Hf1 (f2 + k)%nat).
    unfold bindF at 1. rewrite Hstart.
    unfold bindF at 1.
    replace (f1 + f2 + k)%nat with (f2 + (f1 + k))%nat by lia.
    rewrite <- app_assoc, (Hf2 (f1 + k)%nat).
    unfold bindF, lift, retF. rewrite runDeferred_trace. reflexivity.
Qed.

(** How the two loops show their way out at the end of the trace. *)
Lemma LockLoop_cancelled_end (h : trace) (locked : bool) (evs : list event) :
  LockLoop w h locked evs ->
  locked = false ->
  exists pre, evs = pre ++ [ETryLockClientName false] ++ cancelledEnd.
Proof.
  induction 1 as [h Hprobe|h Hprobe Hwait|h locked evs Hprobe Hwait _ IH];
    intros Hout.
  - discriminate.
  - exists []. reflexivity.
  - destruct (IH Hout) as [pre ->]. exists (lockWait ++ pre).
    rewrite <- app_assoc. reflexivity.
Qed.

Lemma PollLoop_end (h : trace) (status : RunStatus) (evs : list event) :
  PollLoop w h status evs ->
  (status = ContextCancelled /\ exists pre, evs = pre ++ cancelledEnd) \/
  (status = ConnectionDroppped /\ exists pre, evs = pre ++ droppedEnd).
Proof.
  induction 1 as [h body Hbody Hwait|h body Hbody Hwait Halive
                 |h body status evs Hbody Hwait Halive _ IH].
  - left. split; [reflexivity|]. exists body. reflexivity.
  - right. split; [reflexivity|]. exists body. reflexivity.
  - destruct IH as [[-> [pre ->]]|[-> [pre ->]]]; [left|right];
      (split; [reflexivity|]); exists (body ++ aliveEnd ++ pre);
      rewrite <- !app_assoc; reflexivity.
Qed.

(** C9: [Run] returns in exactly the ways of [Returns].  Every return of
    [Run] is one of them; each of them is a return of [Run], for any fuel
    from some amount on.  So [Run] answers ContextCancelled when the wait
    after a failed probe of the client lock sees the cancellation, or when
    the wait that ends a poll cycle sees it; it answers ConnectionDroppped
    when that wait ran out and the liveness probe then failed; and the trace
    ends with the cancelled wait, or the failed probe, followed, once the
    lock was taken, by the deferred calls.  There is no other return. *)
Theorem Run_outcomes (h : trace) (status : RunStatus) (evs : list event) :
  (forall fuel, Run w fuel h = Some (status, evs) -> Returns w h status evs) /\
  (Returns w h status evs ->
   exists fuel, forall k, Run w (fuel + k) h = Some (status, evs)) /\
  (Returns w h status evs ->
   (status = ContextCancelled /\
    exists pre, evs = pre ++ [ETryLockClientName false] ++ cancelledEnd) \/
   (status = ContextCancelled /\
    exists pre, evs = pre ++ cancelledEnd ++ deferred) \/
   (status = ConnectionDroppped /\
    exists pre, evs = pre ++ droppedEnd ++ deferred)).
Proof.
  split; [|split].
  - intros fuel. apply Run_sound.
  - apply Run_complete.
  - intros [evs0 Hlock|evs0 evs1 evs2 status' Hlock Hstart Hpoll].
    + left. split; [reflexivity|].
      exact (LockLoop_cancelled_end _ _ _ Hlock eq_refl).
    + right. destruct (PollLoop_end _ _ _ Hpoll) as [[-> [pre ->]]|[-> [pre ->]]];
        [left|right]; (split; [reflexivity|]); exists (evs0 ++ evs1 ++ pre);
        rewrite <- !app_assoc; reflexivity.
Qed.

End Engine.

(** ** The theorems on concrete runs *)

Lemma dispatched_result_code_witness :
  resultCode scenario (shellElem false) [] = 1 /\
  resultCode sqlFails sqlElem [] = -1 /\
  resultCode scenario sqlElem [] = 0.
Proof.
  split; [|split].
  - apply (dispatched_result_code scenario (shellElem false) [] [] 1 EmptyString
             (Some "exit status 1") [EExecuteShellCommand "exit 1" []]);
      [reflexivity | reflexivity | discriminate | lia].
  - apply (dispatched_result_code sqlFails sqlElem [] [] 0 EmptyString
             (Some "syntax error")
             [EExecuteSQLTask (stamped sqlFails sqlElem []) []]);
      [reflexivity | reflexivity | discriminate | reflexivity].
  - apply (dispatched_result_code scenario sqlElem [] [] 0 EmptyString None
             [EExecuteSQLTask (stamped scenario sqlElem []) []]);
      [reflexivity | reflexivity | reflexivity].
Defined.

Lemma shell_disabled_short_circuit_witness :
  (pgengine.Kind (shellElem false) = "SHELL" /\ NoShellTasks shellOff = true) /\
  resultCode shellOff (shellElem false) [] = -1 /\
  existsb isBackendCall (snd (executeChainElement shellOff (shellElem false) [])) = false.
Proof.
  split; [split; reflexivity|].
  apply (shell_disabled_short_circuit shellOff (shellElem false) []);
    reflexivity.
Defined.

Lemma fetch_failure_writes_no_header_witness :
  (oStartTransaction fetchFails [] = None /\
   oGetChainElements fetchFails opening 1 = None) /\
  snd (executeChain fetchFails 7 1 []) =
    [EStartTransaction true; ELogToDB "LOG" startingChain;
     EGetChainElements 1 false; EMustRollbackTransaction] /\
  existsb isInsertChainRunStatus (snd (executeChain fetchFails 7 1 [])) = false.
Proof.
  split; [split; reflexivity|].
  apply (fetch_failure_writes_no_header fetchFails 7 1 []); reflexivity.
Defined.

Lemma empty_chain_commits_witness :
  (oStartTransaction emptyChain [] = None /\
   oGetChainElements emptyChain opening 1 = Some []) /\
  statusLabels (snd (executeChain emptyChain 7 1 [])) = ["CHAIN_DONE"] /\
  enteredElements (snd (executeChain emptyChain 7 1 [])) = [].
Proof.
  split; [split; reflexivity|].
  destruct (empty_chain_commits emptyChain 7 1 [] eq_refl eq_refl)
    as (Htrace & Hentered & _).
  split; [rewrite Htrace; reflexivity | exact Hentered].
Defined.

Lemma unignored_failure_fails_chain_witness :
  (oStartTransaction scenario [] = None /\
   oGetChainElements scenario opening 1 =
     Some ([sqlElem] ++ shellElem false :: [builtinElem]) /\
   executeChainElements scenario 7 1 42 [sqlElem] (header scenario 7 1 [])
     = (true, scenarioPrefix) /\
   fst (fst scenarioFailure) = 1 /\
   pgengine.IgnoreError (shellElem false) = false) /\
  statusLabels (snd (executeChain scenario 7 1 [])) =
    ["STARTED"; "CHAIN_DONE"; "STARTED"; "CHAIN_FAILED"] /\
  last (snd (executeChain scenario 7 1 [])) ECancel = EMustRollbackTransaction /\
  enteredElements (snd (executeChain scenario 7 1 [])) =
    [withConfig 7 sqlElem; withConfig 7 (shellElem false)].
Proof.
  split; [repeat split; reflexivity|].
  destruct (unignored_failure_fails_chain scenario 7 1 []
              [sqlElem] (shellElem false) [builtinElem] scenarioPrefix
              1 (snd (fst scenarioFailure)) (snd scenarioFailure))
    as [Htrace Hentered];
    [reflexivity | reflexivity | reflexivity | reflexivity | lia | reflexivity |].
  split; [rewrite Htrace; reflexivity|].
  split; [rewrite Htrace; reflexivity|exact Hentered].
Defined.

(** C2 as stated fails: the shell element comes back with code 1, its error
    is ignored, and the statuses written for it are STARTED and CHAIN_DONE;
    no FAILED status is written (nor a DONE one). *)
Lemma ignored_failure_recorded_done :
  fst (fst ignoredRun) = 1 /\
  statusLabels (snd (executeChainElements ignoredFailure 7 1 42 [shellElem true] []))
    = ["STARTED"; "CHAIN_DONE"] /\
  ~ In "FAILED"
      (statusLabels (snd (executeChainElements ignoredFailure 7 1 42
                            [shellElem true] []))) /\
  ~ In "DONE"
      (statusLabels (snd (executeChainElements ignoredFailure 7 1 42
                            [sqlElem] []))).
Proof.
  split; [reflexivity|]. split; [reflexivity|].
  split; cbn; intros [H|[H|H]]; try discriminate H; exact H.
Qed.

Lemma element_status_sequence_witness :
  (executeChainElements ignoredFailure 7 1 42 [] [] = (true, []) /\
   fst (fst ignoredRun) = 1 /\
   pgengine.IgnoreError (shellElem true) = true) /\
  closingLabel 1 (shellElem true) = "CHAIN_DONE" /\
  statusLabels (snd ignoredRun) = [].
Proof.
  split; [repeat split; reflexivity|].
  destruct (element_status_sequence ignoredFailure 7 1 42 []
              [] (shellElem true) [builtinElem] []
              1 (snd (fst ignoredRun)) (snd ignoredRun))
    as (Hquiet & _ & _ & Hignored & _); [reflexivity | reflexivity |].
  split; [apply Hignored; [lia|reflexivity] | exact Hquiet].
Defined.

Lemma unknown_kind_is_success_witness :
  (pgengine.Kind odditElem <> "SQL" /\ pgengine.Kind odditElem <> "SHELL" /\
   pgengine.Kind odditElem <> "BUILTIN") /\
  resultCode oddKind (withConfig 7 odditElem)
    [EUpdateChainRunStatus (withConfig 7 odditElem) 42 "STARTED"] = 0 /\
  existsb isBackendCall
    (snd (executeChainElement oddKind (withConfig 7 odditElem)
            [EUpdateChainRunStatus (withConfig 7 odditElem) 42 "STARTED"])) = false.
Proof.
  split; [repeat split; discriminate|].
  destruct (unknown_kind_is_success oddKind 7 1 42 [] odditElem [sqlElem] [])
    as (Hcode & Hquiet & _);
    [discriminate | discriminate | discriminate | reflexivity |].
  split; [exact Hcode | exact Hquiet].
Defined.

Lemma burst_smoothing_witness :
  (oSelectContext burst [] sqlSelectChains (ClientName burst)
     = inl (repeat oneShot 961) /\
   oSelectContext noBurst [] sqlSelectChains (ClientName noBurst)
     = inl (repeat oneShot 960)) /\
  filter isSleepOrSend (snd (retriveChainsAndRun burst sqlSelectChains [])) =
    flat_map (fun c => [ESleep (62 * Millisecond); ESend c]) (repeat oneShot 961) /\
  filter isSleepOrSend (snd (retriveChainsAndRun noBurst sqlSelectChains [])) =
    map ESend (repeat oneShot 960).
Proof.
  split; [split; reflexivity|].
  destruct (burst_smoothing burst sqlSelectChains [] (repeat oneShot 961) eq_refl)
    as (_ & Hover & _).
  destruct (burst_smoothing noBurst sqlSelectChains [] (repeat oneShot 960) eq_refl)
    as (_ & _ & Hunder).
  split.
  - apply Hover. rewrite repeat_length. reflexivity.
  - apply Hunder. rewrite repeat_length. discriminate.
Defined.

(** C6 as stated fails: in the scenario the run of the selfDestruct
    configuration 7 ends CHAIN_FAILED and rolled back, and the worker deletes
    the configuration all the same. *)
Lemma failed_run_still_deletes :
  SelfDestruct oneShot = true /\
  exists evs,
    chainWorker scenario 1 [oneShot] [] = Some (tt, evs) /\
    statusLabels evs = ["STARTED"; "CHAIN_DONE"; "STARTED"; "CHAIN_FAILED"] /\
    In EMustRollbackTransaction evs /\
    last evs ECancel = EDeleteChainConfig 7.
Proof.
  split; [reflexivity|].
  eexists. split; [vm_compute; reflexivity|].
  split; [reflexivity|]. split; [|reflexivity].
  cbn. do 21 right. left. reflexivity.
Qed.

Lemma self_destruct_after_run_witness :
  (SelfDestruct oneShot = true /\
   waitForAdmission scenario 1 oneShot [calling] = Some (true, letIn)) /\
  chainWorker scenario 1 [oneShot] [] =
    Some (tt, [calling] ++ letIn ++
              snd (executeChain scenario 7 1 ([calling] ++ letIn)) ++
              [EDeleteChainConfig 7]) /\
  ~ In 7 (storeAfter [7; 8]
            ([calling] ++ letIn ++
             snd (executeChain scenario 7 1 ([calling] ++ letIn)) ++
             [EDeleteChainConfig 7])).
Proof.
  split; [split; reflexivity|].
  destruct (self_destruct_after_run scenario 1 oneShot [] [] letIn [7; 8])
    as [Hworker Hgone]; [reflexivity | reflexivity |].
  split; [|exact Hgone].
  rewrite Hworker. cbn [chainWorker retF]. rewrite app_nil_r. reflexivity.
Defined.

Lemma Run_outcomes_witness :
  Returns lockedOut [] ContextCancelled
          ([ETryLockClientName false] ++ cancelledEnd) /\
  (exists evs, Returns scenario [] ContextCancelled evs) /\
  (exists evs, Returns storeGone [] ConnectionDroppped evs).
Proof.
  split; [|split].
  - apply (proj1 (Run_outcomes lockedOut [] ContextCancelled
                    ([ETryLockClientName false] ++ cancelledEnd)) 1%nat).
    vm_compute. reflexivity.
  - assert (Hrun : exists evs, Run scenario 1 [] = Some (ContextCancelled, evs))
      by (eexists; vm_compute; reflexivity).
    destruct Hrun as [evs Hrun]. exists evs.
    exact (proj1 (Run_outcomes scenario [] ContextCancelled evs) 1%nat Hrun).
  - assert (Hrun : exists evs, Run storeGone 1 [] = Some (ConnectionDroppped, evs))
      by (eexists; vm_compute; reflexivity).
    destruct Hrun as [evs Hrun]. exists evs.
    exact (proj1 (Run_outcomes storeGone [] ConnectionDroppped evs) 1%nat Hrun).
Defined.

(** A poll whose send nobody takes does not come back, and neither does
    [Run]: here the reboot chain is never taken. *)
Lemma Run_waits_on_send (fuel : nat) : Run jammed fuel [] = None.
Proof. destruct fuel; [reflexivity|]. vm_compute. reflexivity. Qed.

(** ** Further properties of executeChainElement *)

Lemma forallb_existsb_disjoint (p q : event -> bool) (evs : list event) :
  (forall ev, p ev = true -> q ev = false) ->
  forallb p evs = true -> existsb q evs = false.
Proof.
  intros Hpq. induction evs as [|ev evs IH]; [reflexivity|].
  cbn. intros Hall. apply andb_prop in Hall. destruct Hall as [Hev Hall].
  rewrite (Hpq ev Hev), (IH Hall). reflexivity.
Qed.

Lemma forallb_filter_nil (p q : event -> bool) (evs : list event) :
  (forall ev, p ev = true -> q ev = false) ->
  forallb p evs = true -> filter q evs = [].
Proof.
  intros Hpq. induction evs as [|ev evs IH]; [reflexivity|].
  cbn. intros Hall. apply andb_prop in Hall. destruct Hall as [Hev Hall].
  rewrite (Hpq ev Hev), (IH Hall). reflexivity.
Qed.

Section ElementFacts.

Variable w : World.

(** The five ways through the [switch]. *)
Lemma dispatch_cases (e : Elem) (pv : list string) (h : trace) :
  (pgengine.Kind e = "SQL" /\
   dispatch w e pv h =
     (Some (0, EmptyString, oExecuteSQLTask w h e pv), [EExecuteSQLTask e pv])) \/
  (pgengine.Kind e = "SHELL" /\ NoShellTasks w = true /\
   dispatch w e pv h = (None, [ELogToDB "LOG" "Shell task execution skipped: "])) \/
  (pgengine.Kind e = "SHELL" /\ NoShellTasks w = false /\
   dispatch w e pv h =
     (Some (oExecuteShellCommand w h (pgengine.Script e) pv),
      [EExecuteShellCommand (pgengine.Script e) pv])) \/
  (pgengine.Kind e = "BUILTIN" /\
   dispatch w e pv h =
     (Some (0, EmptyString, oExecuteTask w h (pgengine.TaskName e) pv),
      [EExecuteTask (pgengine.TaskName e) pv])) \/
  (pgengine.Kind e <> "SQL" /\ pgengine.Kind e <> "SHELL" /\
   pgengine.Kind e <> "BUILTIN" /\
   dispatch w e pv h = (Some (0, EmptyString, None), [])).
Proof.
  destruct (String.eqb_spec (pgengine.Kind e) "SQL") as [Hsql|Hsql].
  { left. split; [exact Hsql|]. apply dispatch_SQL. exact Hsql. }
  destruct (String.eqb_spec (pgengine.Kind e) "SHELL") as [Hsh|Hsh].
  { destruct (NoShellTasks w) eqn:Hoff.
    - right. left. repeat split; try assumption.
      apply dispatch_SHELL_disabled; assumption.
    - right. right. left. repeat split; try assumption.
      apply dispatch_SHELL; assumption. }
  destruct (String.eqb_spec (pgengine.Kind e) "BUILTIN") as [Hb|Hb].
  { right. right. right. left. split; [exact Hb|].
    apply dispatch_BUILTIN. exact Hb. }
  right. right. right. right. repeat split; try assumption.
  apply dispatch_other; assumption.
Qed.

(** The events of the function, in terms of those of the dispatch. *)
Lemma executeChainElement_events (e : Elem) (h : trace) :
  snd (executeChainElement w e h) =
    [ELogToDB "DEBUG" "Executing task: %s"; EGetChainParamValues e false] \/
  exists pv,
    oGetChainParamValues w (h ++ [ELogToDB "DEBUG" "Executing task: %s"]) e = Some pv /\
    let d := dispatch w (stamped w e h) pv (resolved e h) in
    snd (executeChainElement w e h) =
      [ELogToDB "DEBUG" "Executing task: %s"; EGetChainParamValues e true] ++
      snd d ++
      match fst d with
      | None => []
      | Some (retCode, out, err) =>
          [ELogChainElementExecution (snd (fst (executeChainElement w e h)))
             retCode (TrimSpace out);
           ELogToDB (if isNil err then "DEBUG" else "ERROR")
                    (if isNil err then "Task executed successfully: %s"
                     else "Task execution failed: %s; Error: %s")]
      end.
Proof.
  destruct (oGetChainParamValues w (h ++ [ELogToDB "DEBUG" "Executing task: %s"]) e)
    as [pv|] eqn:Hpv.
  - right. exists pv. split; [reflexivity|]. cbv zeta.
    rewrite (executeChainElement_resolved w e h pv Hpv). cbv zeta.
    destruct (dispatch w (stamped w e h) pv (resolved e h))
      as [[[[retCode out] [msg|]]|] devs]; cbn [fst snd isNil];
      rewrite <- ?app_assoc; cbn [app]; rewrite ?app_nil_r; reflexivity.
  - left. rewrite (executeChainElement_unresolved w e h Hpv). reflexivity.
Qed.

Lemma dispatch_alphabet (e : Elem) (pv : list string) (h : trace) :
  forallb elementEvent (snd (dispatch w e pv h)) = true.
Proof.
  destruct (dispatch_cases e pv h)
    as [(_ & ->)|[(_ & _ & ->)|[(_ & _ & ->)|[(_ & ->)|(_ & _ & _ & ->)]]]];
    reflexivity.
Qed.

Lemma executeChainElement_alphabet (e : Elem) (h : trace) :
  forallb elementEvent (snd (executeChainElement w e h)) = true.
Proof.
  destruct (executeChainElement_events e h) as [->|(pv & _ & Hev)];
    [reflexivity|].
  cbv zeta in Hev. rewrite Hev. rewrite !forallb_app, dispatch_alphabet.
  destruct (fst (dispatch w (stamped w e h) pv (resolved e h)))
    as [[[retCode out] err]|]; reflexivity.
Qed.

(** The scheduler writes [StartedAt] and [Duration] only. *)
Lemma executeChainElement_keeps (e : Elem) (h : trace) :
  let e' := snd (fst (executeChainElement w e h)) in
  pgengine.ChainConfig e' = pgengine.ChainConfig e /\
  pgengine.ChainID e' = pgengine.ChainID e /\
  pgengine.Kind e' = pgengine.Kind e /\
  pgengine.Script e' = pgengine.Script e /\
  pgengine.TaskName e' = pgengine.TaskName e.
Proof.
  cbv zeta.
  destruct (oGetChainParamValues w (h ++ [ELogToDB "DEBUG" "Executing task: %s"]) e)
    as [pv|] eqn:Hpv.
  - rewrite (executeChainElement_resolved w e h pv Hpv). cbv zeta.
    destruct (dispatch w (stamped w e h) pv (resolved e h))
      as [[[[retCode out] [msg|]]|] devs]; repeat split; reflexivity.
  - rewrite (executeChainElement_unresolved w e h Hpv). repeat split; reflexivity.
Qed.

(** The backend calls of one element. *)
Lemma executeChainElement_backend (e : Elem) (h : trace) :
  Forall (backendOf w e) (snd (executeChainElement w e h)).
Proof.
  destruct (executeChainElement_events e h) as [->|(pv & _ & Hev)];
    [repeat constructor|].
  cbv zeta in Hev. rewrite Hev. clear Hev.
  destruct (dispatch_cases (stamped w e h) pv (resolved e h))
    as [(Hk & ->)|[(Hk & Hoff & ->)|[(Hk & Hoff & ->)|[(Hk & ->)|(_ & _ & _ & ->)]]]];
    cbn [fst snd app].
  - repeat constructor. exact Hk.
  - repeat constructor.
  - destruct (oExecuteShellCommand w _ _ pv) as [[retCode out] err].
    repeat constructor; cbn; auto.
  - repeat constructor; cbn; auto.
  - repeat constructor.
Qed.

(** X1: one element makes at most one call to a task backend, and the call
    is the one its kind selects: the SQL backend for SQL, the shell (with the
    element's script, and only while shell execution is enabled) for SHELL,
    the built-in task of the element's name for BUILTIN. *)
Theorem backend_call_matches_kind (e : Elem) (h : trace) :
  Forall (backendOf w e) (snd (executeChainElement w e h)) /\
  (List.length (filter isBackendCall (snd (executeChainElement w e h))) <= 1)%nat.
Proof.
  split; [apply executeChainElement_backend|].
  destruct (executeChainElement_events e h) as [->|(pv & _ & Hev)];
    [cbn; lia|].
  cbv zeta in Hev. rewrite Hev. clear Hev.
  rewrite !filter_app, !length_app.
  assert (Hd : (List.length (filter isBackendCall
                  (snd (dispatch w (stamped w e h) pv (resolved e h)))) <= 1)%nat).
  { destruct (dispatch_cases (stamped w e h) pv (resolved e h))
      as [(_ & ->)|[(_ & _ & ->)|[(_ & _ & ->)|[(_ & ->)|(_ & _ & _ & ->)]]]];
      cbn; lia. }
  destruct (fst (dispatch w (stamped w e h) pv (resolved e h)))
    as [[[retCode out] err]|]; cbn; lia.
Qed.

(** X2: SQL and BUILTIN tasks have no numeric code of their own, so the
    execution log of such an element always records code 0 and an empty
    output.  When the task fails the element still comes back with -1: the
    logged code and the returned code differ. *)
Theorem codeless_task_logs_zero (e : Elem) (h : trace) :
  pgengine.Kind e = "SQL" \/ pgengine.Kind e = "BUILTIN" ->
  Forall logsZero (snd (executeChainElement w e h)) /\
  (forall pv retCode out msg devs,
      oGetChainParamValues w (h ++ [ELogToDB "DEBUG" "Executing task: %s"]) e
        = Some pv ->
      dispatch w (stamped w e h) pv (resolved e h)
        = (Some (retCode, out, Some msg), devs) ->
      resultCode w e h = -1 /\
      In (ELogChainElementExecution (snd (fst (executeChainElement w e h)))
            0 EmptyString)
         (snd (executeChainElement w e h))).
Proof.
  intros Hkind.
  assert (Hd : forall pv,
             exists err ev,
               dispatch w (stamped w e h) pv (resolved e h)
                 = (Some (0, EmptyString, err), [ev]) /\ logsZero ev).
  { intros pv.
    destruct (dispatch_cases (stamped w e h) pv (resolved e h))
      as [(_ & Hd)|[(Hk & _)|[(Hk & _)|[(_ & Hd)|(Hk1 & _ & Hk3 & _)]]]].
    - eexists _, _. split; [exact Hd|exact I].
    - change (pgengine.Kind e = "SHELL") in Hk.
      destruct Hkind as [Hc|Hc]; rewrite Hc in Hk; discriminate.
    - change (pgengine.Kind e = "SHELL") in Hk.
      destruct Hkind as [Hc|Hc]; rewrite Hc in Hk; discriminate.
    - eexists _, _. split; [exact Hd|exact I].
    - destruct Hkind as [Hc|Hc]; [elim Hk1|elim Hk3]; exact Hc. }
  split.
  - destruct (executeChainElement_events e h) as [->|(pv & _ & Hev)];
      [repeat constructor|].
    cbv zeta in Hev. rewrite Hev.
    destruct (Hd pv) as (err & ev & -> & Hz). cbn [fst snd app].
    repeat constructor; try exact Hz; reflexivity.
  - intros pv retCode out msg devs Hpv Hdis.
    destruct (Hd pv) as (err & ev & Hd' & _).
    rewrite Hdis in Hd'. injection Hd' as -> -> <- ->.
    unfold resultCode.
    rewrite (executeChainElement_resolved w e h pv Hpv). cbv zeta.
    rewrite Hdis. change (TrimSpace EmptyString) with EmptyString.
    cbn [fst snd Z.eqb app].
    split; [reflexivity|]. right. right. right. left. reflexivity.
Qed.

(** X3: with a clock that does not run backwards, every duration written to
    the execution log is non-negative. *)
Theorem logged_duration_nonnegative (e : Elem) (h : trace) :
  (forall h' evs, oNow w h' <= oNow w (h' ++ evs)) ->
  Forall logsDuration (snd (executeChainElement w e h)).
Proof.
  intros Hclock.
  destruct (oGetChainParamValues w (h ++ [ELogToDB "DEBUG" "Executing task: %s"]) e)
    as [pv|] eqn:Hpv.
  - rewrite (executeChainElement_resolved w e h pv Hpv). cbv zeta.
    pose proof (dispatch_alphabet (stamped w e h) pv (resolved e h)) as Halpha.
    assert (Hdev : Forall logsDuration
                     (snd (dispatch w (stamped w e h) pv (resolved e h)))).
    { apply Forall_forall. intros ev Hin.
      rewrite forallb_forall in Halpha. specialize (Halpha ev Hin).
      destruct (dispatch_cases (stamped w e h) pv (resolved e h))
        as [(_ & Hd)|[(_ & _ & Hd)|[(_ & _ & Hd)|[(_ & Hd)|(_ & _ & _ & Hd)]]]];
        rewrite Hd in Hin; cbn in Hin;
        repeat (destruct Hin as [<-|Hin]; [exact I|]); destruct Hin. }
    destruct (dispatch w (stamped w e h) pv (resolved e h))
      as [[[[retCode out] err]|] devs]; cbn [snd] in *.
    + assert (Hd : 0 <= Z.quot (oNow w (resolved e h ++ devs)
                                - pgengine.StartedAt (stamped w e h)) 1000).
      { apply Z.quot_pos; [|lia].
        cbn [stamped pgengine.StartedAt pgengine.setStartedAt].
        specialize (Hclock (resolved e h) devs). lia. }
      destruct err as [msg|]; cbn [snd];
        repeat (apply Forall_app; split); try exact Hdev;
        repeat constructor; exact Hd.
    + cbn [snd]. repeat (apply Forall_app; split); try exact Hdev;
        repeat constructor.
  - rewrite (executeChainElement_unresolved w e h Hpv). repeat constructor.
Qed.

End ElementFacts.

(** ** Further properties of executeChain *)

Lemma filter_isTxEnd_app (a b : list event) :
  filter isTxEnd (a ++ b) = filter isTxEnd a ++ filter isTxEnd b.
Proof. apply filter_app. Qed.

Lemma elementEvent_not_txEnd (ev : event) :
  elementEvent ev = true -> isTxEnd ev = false.
Proof. destruct ev; cbn; congruence. Qed.

Section RunFacts.

Variable w : World.

Lemma executeChain_not_started (cfg id : Z) (h : trace) (msg : string) :
  oStartTransaction w h = Some msg ->
  executeChain w cfg id h =
    (tt, [EStartTransaction false; ELogToDB "ERROR" "Cannot start transaction: "]).
Proof.
  intros Htx.
  unfold executeChain, bind, StartTransaction, call, LogToDB, emit.
  rewrite Htx. reflexivity.
Qed.

(** A property of events that holds for what each element leaves, for the
    status updates of the loop and for its failure exit, holds for all the
    loop leaves. *)
Lemma executeChainElements_Forall (P : event -> Prop) (cfg id rid : Z) :
  (forall e h, Forall P (snd (executeChainElement w (withConfig cfg e) h))) ->
  (forall e status,
      pgengine.ChainConfig e = cfg ->
      status = "STARTED" \/ status = "CHAIN_DONE" \/ status = "CHAIN_FAILED" ->
      P (EUpdateChainRunStatus e rid status)) ->
  P (ELogToDB "ERROR" "Chain ID: %d failed") ->
  P EMustRollbackTransaction ->
  forall elems h, Forall P (snd (executeChainElements w cfg id rid elems h)).
Proof.
  intros Helem Hstatus Hlog Hrb.
  induction elems as [|e elems IH]; intros h; [constructor|].
  rewrite executeChainElements_cons. cbv zeta.
  specialize (Helem e (h ++ [EUpdateChainRunStatus (pgengine.setChainConfig e cfg) rid "STARTED"])).
  pose proof (executeChainElement_keeps w (pgengine.setChainConfig e cfg)
                (h ++ [EUpdateChainRunStatus (pgengine.setChainConfig e cfg) rid "STARTED"]))
    as Hkeep.
  cbv zeta in Hkeep. destruct Hkeep as (Hcfg & _).
  unfold withConfig in Helem.
  destruct (executeChainElement w _ _) as [[retCode e1] evs].
  cbn [fst snd] in *.
  assert (Hfirst : P (EUpdateChainRunStatus (pgengine.setChainConfig e cfg) rid "STARTED")).
  { apply Hstatus; [reflexivity|auto]. }
  destruct (negb (retCode =? 0) && negb (pgengine.IgnoreError e1)); cbn [snd].
  - constructor; [exact Hfirst|].
    apply Forall_app. split; [exact Helem|].
    repeat constructor; try assumption. apply Hstatus; auto.
  - specialize (IH (h ++ [EUpdateChainRunStatus (pgengine.setChainConfig e cfg) rid "STARTED"]
                      ++ evs ++ [EUpdateChainRunStatus e1 rid "CHAIN_DONE"])).
    destruct (executeChainElements w cfg id rid elems _) as [b evs'].
    cbn [snd] in *. cbn [app]. constructor; [exact Hfirst|].
    rewrite <- app_assoc. apply Forall_app. split; [exact Helem|].
    constructor; [apply Hstatus; auto|exact IH].
Qed.

(** The same for a whole run. *)
Lemma executeChain_Forall (P : event -> Prop) (cfg id : Z) (h : trace) :
  (forall e h', Forall P (snd (executeChainElement w (withConfig cfg e) h'))) ->
  (forall e status,
      pgengine.ChainConfig e = cfg ->
      status = "STARTED" \/ status = "CHAIN_DONE" \/ status = "CHAIN_FAILED" ->
      P (EUpdateChainRunStatus e (runStatusID w cfg id h) status)) ->
  (forall level msg, P (ELogToDB level msg)) ->
  (forall ev, runEvent ev = true -> elementEvent ev = false ->
              statusLabels [ev] = [] -> P ev) ->
  Forall P (snd (executeChain w cfg id h)).
Proof.
  intros Helem Hstatus Hlog Hown.
  destruct (oStartTransaction w h) as [msg|] eqn:Htx.
  { rewrite (executeChain_not_started cfg id h msg Htx).
    repeat constructor; [apply Hown; reflexivity|apply Hlog]. }
  destruct (oGetChainElements w (h ++ opening) id) as [elems|] eqn:Hget.
  - rewrite (executeChain_fetched w cfg id h elems Htx Hget). cbv zeta.
    pose proof (executeChainElements_Forall P cfg id (runStatusID w cfg id h)
                  Helem Hstatus (Hlog _ _)
                  (Hown EMustRollbackTransaction eq_refl eq_refl eq_refl)
                  elems (h ++ header w cfg id h)) as Hloop.
    destruct (executeChainElements w cfg id _ elems _) as [b evs].
    cbn [snd] in *. unfold header, opening.
    repeat (apply Forall_app; split); try exact Hloop.
    + repeat constructor; try apply Hlog; apply Hown; reflexivity.
    + repeat constructor; apply Hown; reflexivity.
    + destruct b; [|constructor]. unfold closing.
      repeat constructor; try apply Hlog;
        [apply Hstatus; [reflexivity|auto]|apply Hown; reflexivity].
  - rewrite (executeChain_not_fetched w cfg id h Htx Hget). unfold opening.
    repeat constructor; try apply Hlog; apply Hown; reflexivity.
Qed.

Lemma executeChain_alphabet (cfg id : Z) (h : trace) :
  forallb runEvent (snd (executeChain w cfg id h)) = true.
Proof.
  apply forallb_forall. apply Forall_forall.
  apply executeChain_Forall.
  - intros e h'. apply Forall_forall. apply forallb_forall.
    pose proof (executeChainElement_alphabet w (withConfig cfg e) h') as Ha.
    clear -Ha. induction (snd (executeChainElement w (withConfig cfg e) h'))
      as [|ev evs IH]; [reflexivity|].
    cbn in *. apply andb_prop in Ha. destruct Ha as [Hev Ha].
    rewrite (IH Ha), andb_true_r. destruct ev; cbn in *; congruence.
  - reflexivity.
  - reflexivity.
  - intros ev Hrun _ _. exact Hrun.
Qed.

(** What a pass through the loop leaves: [k] elements let the chain go on;
    then the loop ran off its end, or element [k] failed it. *)
Lemma executeChainElements_summary (cfg id rid : Z) (elems : list Elem) :
  forall h,
    let r := executeChainElements w cfg id rid elems h in
    exists k : nat,
      (fst r = true /\ k = List.length elems /\
       statusLabels (snd r) = rounds k /\
       enteredElements (snd r) = map (withConfig cfg) elems /\
       filter isTxEnd (snd r) = []) \/
      (fst r = false /\ (k < List.length elems)%nat /\
       statusLabels (snd r) = rounds k ++ ["STARTED"; "CHAIN_FAILED"] /\
       enteredElements (snd r) = map (withConfig cfg) (firstn (S k) elems) /\
       filter isTxEnd (snd r) = [EMustRollbackTransaction] /\
       exists pre, snd r = pre ++ [EMustRollbackTransaction]).
Proof.
  induction elems as [|e elems IH]; intros h; cbv zeta.
  { exists 0%nat. left. repeat split; reflexivity. }
  rewrite executeChainElements_cons. cbv zeta.
  set (e0 := pgengine.setChainConfig e cfg).
  set (h1 := h ++ [EUpdateChainRunStatus e0 rid "STARTED"]).
  destruct (executeChainElement_trace w e0 h1) as (Hst & Hent & _).
  pose proof (forallb_filter_nil elementEvent isTxEnd _ elementEvent_not_txEnd
                (executeChainElement_alphabet w e0 h1)) as Htx.
  destruct (executeChainElement w e0 h1) as [[retCode e1] evs].
  cbn [fst snd] in *.
  destruct (negb (retCode =? 0) && negb (pgengine.IgnoreError e1)).
  - exists 0%nat. right. cbn [fst snd].
    split; [reflexivity|]. split; [cbn; lia|].
    split.
    { cbn [app statusLabels]. rewrite statusLabels_app, Hst. reflexivity. }
    split.
    { cbn [app enteredElements]. rewrite enteredElements_app, Hent. reflexivity. }
    split.
    { cbn [app filter isTxEnd]. rewrite filter_isTxEnd_app, Htx. reflexivity. }
    exists ([EUpdateChainRunStatus e0 rid "STARTED"] ++ evs ++
            [ELogToDB "ERROR" "Chain ID: %d failed";
             EUpdateChainRunStatus e1 rid "CHAIN_FAILED"]).
    rewrite <- !app_assoc. reflexivity.
  - specialize (IH (h ++ [EUpdateChainRunStatus e0 rid "STARTED"] ++ evs ++
                      [EUpdateChainRunStatus e1 rid "CHAIN_DONE"])).
    cbv zeta in IH.
    destruct (executeChainElements w cfg id rid elems _) as [b evs'].
    cbn [fst snd] in *.
    assert (Hl : statusLabels (([EUpdateChainRunStatus e0 rid "STARTED"] ++ evs ++
                                [EUpdateChainRunStatus e1 rid "CHAIN_DONE"]) ++ evs')
                 = "STARTED" :: "CHAIN_DONE" :: statusLabels evs').
    { rewrite !statusLabels_app. cbn [statusLabels]. rewrite Hst. reflexivity. }
    assert (He : enteredElements (([EUpdateChainRunStatus e0 rid "STARTED"] ++ evs ++
                                   [EUpdateChainRunStatus e1 rid "CHAIN_DONE"]) ++ evs')
                 = e0 :: enteredElements evs').
    { rewrite !enteredElements_app. cbn [enteredElements]. rewrite Hent. reflexivity. }
    assert (Ht : filter isTxEnd (([EUpdateChainRunStatus e0 rid "STARTED"] ++ evs ++
                                  [EUpdateChainRunStatus e1 rid "CHAIN_DONE"]) ++ evs')
                 = filter isTxEnd evs').
    { rewrite !filter_isTxEnd_app. cbn [filter isTxEnd]. rewrite Htx. reflexivity. }
    destruct IH as [k [(Hb & Hk & Hlab & Hentd & Htxe)
                      |(Hb & Hk & Hlab & Hentd & Htxe & pre & Hpre)]].
    + exists (S k). left. rewrite Hl, He, Ht, Hlab, Hentd.
      repeat split; try assumption. cbn. lia.
    + exists (S k). right. rewrite Hl, He, Ht, Hlab, Hentd.
      split; [assumption|]. split; [cbn; lia|].
      split; [reflexivity|]. split; [reflexivity|]. split; [assumption|].
      exists (([EUpdateChainRunStatus e0 rid "STARTED"] ++ evs ++
               [EUpdateChainRunStatus e1 rid "CHAIN_DONE"]) ++ pre).
      rewrite Hpre, <- !app_assoc. reflexivity.
Qed.

(** The loop runs off its end when every element, at the point the loop
    gets to it, comes back with code 0 or has its error ignored. *)
Lemma executeChainElements_goes_on (cfg id rid : Z) (elems : list Elem) :
  forall h,
    (forall pre e post evs1,
        elems = pre ++ e :: post ->
        executeChainElements w cfg id rid pre h = (true, evs1) ->
        resultCode w (withConfig cfg e)
          (h ++ evs1 ++ [EUpdateChainRunStatus (withConfig cfg e) rid "STARTED"]) = 0 \/
        pgengine.IgnoreError e = true) ->
    fst (executeChainElements w cfg id rid elems h) = true.
Proof.
  induction elems as [|e elems IH]; intros h Hok; [reflexivity|].
  pose proof (Hok [] e elems [] eq_refl eq_refl) as Hcode.
  cbn [app] in Hcode. unfold resultCode, withConfig in Hcode.
  pose proof (executeChainElements_cons w cfg id rid e) as Hcons.
  rewrite Hcons. cbv zeta.
  set (e0 := pgengine.setChainConfig e cfg) in *.
  set (h1 := h ++ [EUpdateChainRunStatus e0 rid "STARTED"]) in *.
  destruct (executeChainElement_trace w e0 h1) as (_ & _ & Hie).
  destruct (executeChainElement w e0 h1) as [[retCode e1] evs] eqn:Hrun.
  cbn [fst snd] in *.
  assert (Hgo : negb (retCode =? 0) && negb (pgengine.IgnoreError e1) = false).
  { rewrite Hie. change (pgengine.IgnoreError e0) with (pgengine.IgnoreError e).
    destruct Hcode as [->| ->]; [reflexivity|apply andb_false_r]. }
  rewrite Hgo.
  set (done := [EUpdateChainRunStatus e0 rid "STARTED"] ++ evs ++
               [EUpdateChainRunStatus e1 rid "CHAIN_DONE"]).
  assert (Hrest : fst (executeChainElements w cfg id rid elems (h ++ done)) = true).
  { apply IH. intros pre e' post evs1 Heq Hpre.
    assert (Hloop : executeChainElements w cfg id rid (e :: pre) h
                    = (true, done ++ evs1)).
    { rewrite Hcons. cbv zeta. fold e0. fold h1. rewrite Hrun, Hgo.
      fold done. rewrite Hpre. reflexivity. }
    pose proof (Hok (e :: pre) e' post (done ++ evs1)
                    (f_equal (cons e) Heq) Hloop) as Hc.
    rewrite <- !app_assoc in Hc. rewrite <- !app_assoc. exact Hc. }
  destruct (executeChainElements w cfg id rid elems (h ++ done)) as [b evs'].
  exact Hrest.
Qed.

(** A run that fetched its elements, summed up. *)
Lemma executeChain_summary (cfg id : Z) (h : trace) (elems : list Elem) :
  oStartTransaction w h = None ->
  oGetChainElements w (h ++ opening) id = Some elems ->
  let evs := snd (executeChain w cfg id h) in
  exists k : nat,
    (k = List.length elems /\
     fst (executeChainElements w cfg id (runStatusID w cfg id h) elems
            (h ++ header w cfg id h)) = true /\
     statusLabels evs = rounds k ++ ["CHAIN_DONE"] /\
     enteredElements evs = map (withConfig cfg) elems /\
     filter isTxEnd evs = [EMustCommitTransaction] /\
     exists pre, evs = pre ++ [EMustCommitTransaction]) \/
    ((k < List.length elems)%nat /\
     fst (executeChainElements w cfg id (runStatusID w cfg id h) elems
            (h ++ header w cfg id h)) = false /\
     statusLabels evs = rounds k ++ ["STARTED"; "CHAIN_FAILED"] /\
     enteredElements evs = map (withConfig cfg) (firstn (S k) elems) /\
     filter isTxEnd evs = [EMustRollbackTransaction] /\
     exists pre, evs = pre ++ [EMustRollbackTransaction]).
Proof.
  intros Htx Hget. cbv zeta.
  rewrite (executeChain_fetched w cfg id h elems Htx Hget). cbv zeta.
  destruct (executeChainElements_summary cfg id (runStatusID w cfg id h) elems
              (h ++ header w cfg id h)) as [k Hsum].
  cbv zeta in Hsum.
  destruct (executeChainElements w cfg id _ elems _) as [b evs].
  cbn [fst snd] in *. exists k.
  destruct Hsum as [(-> & Hk & Hlab & Hent & Htxe)
                   |(-> & Hk & Hlab & Hent & Htxe & pre & Hpre)].
  - left. split; [exact Hk|]. split; [reflexivity|].
    rewrite !statusLabels_app, !enteredElements_app, !filter_isTxEnd_app.
    rewrite Hlab, Hent, Htxe. cbn. rewrite !app_nil_r.
    repeat split.
    exists (header w cfg id h ++ evs ++
            [ELogToDB "LOG" "Executed successfully chain ID: %d; configuration ID: %d";
             EUpdateChainRunStatus (chainHeader cfg id) (runStatusID w cfg id h) "CHAIN_DONE"]).
    unfold closing. rewrite <- !app_assoc. reflexivity.
  - right. split; [exact Hk|]. split; [reflexivity|].
    rewrite !app_nil_r.
    rewrite !statusLabels_app, !enteredElements_app, !filter_isTxEnd_app.
    rewrite Hlab, Hent, Htxe. cbn [header opening app statusLabels enteredElements filter isTxEnd].
    repeat split.
    exists (header w cfg id h ++ pre). rewrite Hpre, <- !app_assoc. reflexivity.
Qed.

(** X4: a run whose transaction was started closes it exactly once, and that
    is the last thing it does: the trace has a single commit or rollback, at
    its end.  A run whose transaction could not be started neither commits
    nor rolls back, inserts no run header and enters no element. *)
Theorem transaction_closed_once (cfg id : Z) (h : trace) :
  let evs := snd (executeChain w cfg id h) in
  (oStartTransaction w h = None ->
   exists fin pre,
     (fin = EMustCommitTransaction \/ fin = EMustRollbackTransaction) /\
     filter isTxEnd evs = [fin] /\ evs = pre ++ [fin]) /\
  (oStartTransaction w h <> None ->
   filter isTxEnd evs = [] /\
   existsb isInsertChainRunStatus evs = false /\
   enteredElements evs = []).
Proof.
  cbv zeta. split.
  - intros Htx.
    destruct (oGetChainElements w (h ++ opening) id) as [elems|] eqn:Hget.
    + destruct (executeChain_summary cfg id h elems Htx Hget) as [k Hsum].
      cbv zeta in Hsum.
      destruct Hsum as [(_ & _ & _ & _ & Hone & pre & Hpre)
                       |(_ & _ & _ & _ & Hone & pre & Hpre)].
      * exists EMustCommitTransaction, pre. auto.
      * exists EMustRollbackTransaction, pre. auto.
    + rewrite (executeChain_not_fetched w cfg id h Htx Hget).
      exists EMustRollbackTransaction, (opening ++ [EGetChainElements id false]).
      repeat split; auto.
  - intros Htx. destruct (oStartTransaction w h) as [msg|] eqn:Hs; [|congruence].
    rewrite (executeChain_not_started cfg id h msg Hs). repeat split.
Qed.

(** X5: the status labels of a run that fetched its elements are a number
    of STARTED, CHAIN_DONE pairs, one per element that let the chain go on,
    closed either by CHAIN_DONE, when every element was such and the run
    ends in a commit, or by STARTED, CHAIN_FAILED, when an element failed
    the chain and the run ends in a rollback. *)
Theorem run_status_grammar (cfg id : Z) (h : trace) (elems : list Elem) :
  oStartTransaction w h = None ->
  oGetChainElements w (h ++ opening) id = Some elems ->
  let evs := snd (executeChain w cfg id h) in
  exists k : nat,
    (k = List.length elems /\
     statusLabels evs = rounds k ++ ["CHAIN_DONE"] /\
     exists pre, evs = pre ++ [EMustCommitTransaction]) \/
    ((k < List.length elems)%nat /\
     statusLabels evs = rounds k ++ ["STARTED"; "CHAIN_FAILED"] /\
     exists pre, evs = pre ++ [EMustRollbackTransaction]).
Proof.
  intros Htx Hget. cbv zeta.
  destruct (executeChain_summary cfg id h elems Htx Hget) as [k Hsum].
  cbv zeta in Hsum. exists k.
  destruct Hsum as [(Hk & _ & Hlab & _ & _ & Hlast)
                   |(Hk & _ & Hlab & _ & _ & Hlast)]; [left|right]; auto.
Qed.

(** X6: a run enters the elements in the order they were fetched, without
    a gap: the elements entered are a prefix of the chain, the whole chain
    when the run commits, and never empty for a chain that has elements. *)
Theorem elements_entered_in_order (cfg id : Z) (h : trace) (elems : list Elem) :
  oStartTransaction w h = None ->
  oGetChainElements w (h ++ opening) id = Some elems ->
  let evs := snd (executeChain w cfg id h) in
  exists n : nat,
    (n <= List.length elems)%nat /\
    enteredElements evs = map (withConfig cfg) (firstn n elems) /\
    (elems <> [] -> (0 < n)%nat) /\
    (In EMustCommitTransaction evs -> n = List.length elems).
Proof.
  intros Htx Hget. cbv zeta.
  destruct (executeChain_summary cfg id h elems Htx Hget) as [k Hsum].
  cbv zeta in Hsum.
  destruct Hsum as [(Hk & _ & _ & Hent & _ & _)
                   |(Hk & _ & _ & Hent & Hone & _)].
  - exists (List.length elems). rewrite firstn_all.
    repeat split; auto.
    intros Hne. destruct elems; [congruence|cbn; lia].
  - exists (S k). repeat split; auto; try lia.
    intros Hin.
    assert (Hf : In EMustCommitTransaction
                   (filter isTxEnd (snd (executeChain w cfg id h)))).
    { apply filter_In. split; [exact Hin|reflexivity]. }
    rewrite Hone in Hf. destruct Hf as [Hf|[]]. discriminate Hf.
Qed.

(** X7: every status update of a run carries the configuration of the chain
    and the run status identifier that InsertChainRunStatus returned for
    this run, and its label is STARTED, CHAIN_DONE or CHAIN_FAILED. *)
Theorem status_updates_carry_run (cfg id : Z) (h : trace) :
  Forall (statusOf cfg (runStatusID w cfg id h)) (snd (executeChain w cfg id h)).
Proof.
  apply executeChain_Forall.
  - intros e h'. apply Forall_forall. intros ev Hin.
    pose proof (executeChainElement_alphabet w (withConfig cfg e) h') as Ha.
    rewrite forallb_forall in Ha. specialize (Ha ev Hin).
    destruct ev; cbn in Ha; try discriminate; exact I.
  - intros e status Hcfg Hlab. cbn. auto.
  - intros level msg. exact I.
  - intros ev _ _ Hst. destruct ev; try exact I. discriminate Hst.
Qed.

(** X8: when every element of the chain, at the point this run gets to it,
    comes back with code 0 or has its error ignored, the run enters all of
    them, writes a STARTED, CHAIN_DONE pair for each, closes with CHAIN_DONE
    and commits.  What an element would return at any other point does not
    matter. *)
Theorem clean_or_ignored_chain_commits (cfg id : Z) (h : trace)
    (elems : list Elem) :
  let rid := runStatusID w cfg id h in
  oStartTransaction w h = None ->
  oGetChainElements w (h ++ opening) id = Some elems ->
  (forall pre e post evs1,
      elems = pre ++ e :: post ->
      executeChainElements w cfg id rid pre (h ++ header w cfg id h)
        = (true, evs1) ->
      resultCode w (withConfig cfg e)
        (h ++ header w cfg id h ++ evs1 ++
         [EUpdateChainRunStatus (withConfig cfg e) rid "STARTED"]) = 0 \/
      pgengine.IgnoreError e = true) ->
  let evs := snd (executeChain w cfg id h) in
  statusLabels evs = rounds (List.length elems) ++ ["CHAIN_DONE"] /\
  enteredElements evs = map (withConfig cfg) elems /\
  exists pre, evs = pre ++ [EMustCommitTransaction].
Proof.
  intros rid Htx Hget Hok. cbv zeta.
  assert (Hfin : fst (executeChainElements w cfg id rid elems
                        (h ++ header w cfg id h)) = true).
  { apply executeChainElements_goes_on.
    intros pre e post evs1 Heq Hpre.
    pose proof (Hok pre e post evs1 Heq Hpre) as Hc.
    rewrite <- !app_assoc. exact Hc. }
  destruct (executeChain_summary cfg id h elems Htx Hget) as [k Hsum].
  cbv zeta in Hsum. fold rid in Hsum.
  destruct Hsum as [(-> & _ & Hlab & Hent & _ & Hlast)|(_ & Hb & _)];
    [auto|congruence].
Qed.

(** X9: an element whose parameter values do not resolve comes back with
    code -1, unchanged, and with nothing left in the trace but the request
    for the values: no task backend is called and no execution is logged.
    Unless its error is ignored this fails the chain; if it is ignored the
    element is recorded CHAIN_DONE and the loop goes on. *)
Theorem unresolved_parameters_fail_element (cfg id rid : Z) (h : trace)
    (e : Elem) (rest : list Elem) :
  let e0 := withConfig cfg e in
  let entry := [EUpdateChainRunStatus e0 rid "STARTED";
                ELogToDB "DEBUG" "Executing task: %s";
                EGetChainParamValues e0 false] in
  oGetChainParamValues w
    (h ++ [EUpdateChainRunStatus e0 rid "STARTED";
           ELogToDB "DEBUG" "Executing task: %s"]) e0 = None ->
  executeChainElement w e0 (h ++ [EUpdateChainRunStatus e0 rid "STARTED"]) =
    (-1, e0, [ELogToDB "DEBUG" "Executing task: %s";
              EGetChainParamValues e0 false]) /\
  resultCode w e0 (h ++ [EUpdateChainRunStatus e0 rid "STARTED"]) = -1 /\
  (pgengine.IgnoreError e = false ->
   executeChainElements w cfg id rid (e :: rest) h =
     (false, entry ++ [ELogToDB "ERROR" "Chain ID: %d failed";
                       EUpdateChainRunStatus e0 rid "CHAIN_FAILED";
                       EMustRollbackTransaction])) /\
  (pgengine.IgnoreError e = true ->
   executeChainElements w cfg id rid (e :: rest) h =
     (let turn := entry ++ [EUpdateChainRunStatus e0 rid "CHAIN_DONE"] in
      let (b, evs) := executeChainElements w cfg id rid rest (h ++ turn) in
      (b, turn ++ evs))).
Proof.
  intros e0 entry Hpv.
  assert (Hrun : executeChainElement w e0 (h ++ [EUpdateChainRunStatus e0 rid "STARTED"])
                 = (-1, e0, [ELogToDB "DEBUG" "Executing task: %s";
                             EGetChainParamValues e0 false])).
  { apply executeChainElement_unresolved. rewrite <- app_assoc. exact Hpv. }
  split; [exact Hrun|].
  split; [unfold resultCode; rewrite Hrun; reflexivity|].
  split; intros Hign; rewrite executeChainElements_cons; cbv zeta;
    fold (withConfig cfg e); fold e0; rewrite Hrun;
    change (pgengine.IgnoreError e0) with (pgengine.IgnoreError e);
    rewrite Hign; reflexivity.
Qed.

(** X10: while shell execution is disabled, no run of a chain calls the
    shell, whatever the chain holds. *)
Theorem disabled_shell_never_runs (cfg id : Z) (h : trace) :
  NoShellTasks w = true ->
  existsb isExecuteShellCommand (snd (executeChain w cfg id h)) = false.
Proof.
  intros Hoff.
  assert (Hall : Forall (fun ev => isExecuteShellCommand ev = false)
                        (snd (executeChain w cfg id h))).
  { apply executeChain_Forall.
    - intros e h'.
      pose proof (executeChainElement_backend w (withConfig cfg e) h') as Hb.
      eapply Forall_impl; [|exact Hb].
      intros ev Hev. destruct ev; try reflexivity.
      cbn in Hev. destruct Hev as (_ & Hon & _). congruence.
    - reflexivity.
    - reflexivity.
    - intros ev Hrun Hel _. destruct ev; try reflexivity.
      cbn in Hrun, Hel. congruence. }
  rewrite Forall_forall in Hall.
  destruct (existsb isExecuteShellCommand (snd (executeChain w cfg id h))) eqn:Hex;
    [|reflexivity].
  apply existsb_exists in Hex. destruct Hex as (ev & Hin & Hsh).
  rewrite (Hall ev Hin) in Hsh. discriminate.
Qed.

End RunFacts.

(** ** Further properties of retriveChainsAndRun *)

Lemma sentChains_app (a b : list event) :
  sentChains (a ++ b) = sentChains a ++ sentChains b.
Proof.
  induction a as [|ev a IH]; [reflexivity|].
  destruct ev; cbn; rewrite ?IH; reflexivity.
Qed.

Lemma totalSleep_app (a b : list event) :
  totalSleep (a ++ b) = totalSleep a + totalSleep b.
Proof.
  induction a as [|ev a IH]; [reflexivity|].
  destruct ev; cbn [app totalSleep]; rewrite ?IH; lia.
Qed.

Lemma polls_app (a b : list event) :
  polls (a ++ b) = polls a ++ polls b.
Proof.
  induction a as [|ev a IH]; [reflexivity|].
  destruct ev; cbn; rewrite ?IH; reflexivity.
Qed.

Section PollerFacts.

Variable w : World.

(** What the hand-over loop leaves. *)
Lemma sendChains_summary (count : Z) (chains : list Chain) :
  forall h,
    let evs := snd (sendChains count chains h) in
    sentChains evs = chains /\
    totalSleep evs =
      (if count >? maxChainsThreshold
       then Z.of_nat (List.length chains) * smoothingDelay count else 0) /\
    polls evs = [] /\
    forallb pollerEvent evs = true.
Proof.
  induction chains as [|c chains IH]; intros h; cbv zeta.
  { cbn. destruct (count >? _); repeat split; reflexivity. }
  rewrite sendChains_cons. cbv zeta.
  specialize (IH (h ++ (if count >? maxChainsThreshold
                        then [ESleep (smoothingDelay count)] else [])
                    ++ [ELogToDB "DEBUG" "Putting head chain %s to the execution channel";
                        ESend c])).
  cbv zeta in IH.
  destruct (sendChains count chains _) as [u evs]. cbn [snd] in *.
  destruct IH as (Hsent & Hsleep & Hpolls & Halpha).
  rewrite !sentChains_app, !totalSleep_app, !polls_app, !forallb_app.
  rewrite Hsent, Hsleep, Hpolls, Halpha.
  destruct (count >? maxChainsThreshold); cbn [sentChains totalSleep polls
    forallb pollerEvent app andb]; repeat split; try reflexivity.
  cbn [List.length]. rewrite Nat2Z.inj_succ. lia.
Qed.

Lemma retriveChainsAndRun_failed (sql : string) (h : trace) (msg : string) :
  oSelectContext w h sql (ClientName w) = inr msg ->
  snd (retriveChainsAndRun w sql h) =
    [ESelectContext sql (ClientName w) false;
     ELogToDB "ERROR" "Could not query pending tasks: "].
Proof.
  intros Herr. unfold retriveChainsAndRun, bind, call, LogToDB, emit.
  rewrite Herr. reflexivity.
Qed.

(** One call is one query, and leaves poller events only. *)
Lemma retriveChainsAndRun_polls (sql : string) (h : trace) :
  polls (snd (retriveChainsAndRun w sql h)) = [sql] /\
  forallb pollerEvent (snd (retriveChainsAndRun w sql h)) = true.
Proof.
  destruct (oSelectContext w h sql (ClientName w)) as [rows|msg] eqn:Hq.
  - rewrite (retriveChainsAndRun_rows w sql h rows Hq).
    destruct (sendChains_summary (Z.of_nat (List.length rows)) rows
                (h ++ [ESelectContext sql (ClientName w) true;
                       ELogToDB "LOG" "Number of chains to be executed: "]))
      as (_ & _ & Hpolls & Halpha).
    rewrite polls_app, forallb_app, Hpolls, Halpha. split; reflexivity.
  - rewrite (retriveChainsAndRun_failed sql h msg Hq). split; reflexivity.
Qed.

(** X11: a poll sends exactly the chains the query returned, each once and
    in the order of the rows; a poll whose query failed sends nothing.
    Either way it asks the store once. *)
Theorem poll_sends_fetched_chains (sql : string) (h : trace) :
  sentChains (snd (retriveChainsAndRun w sql h)) =
    match oSelectContext w h sql (ClientName w) with
    | inl headChains => headChains
    | inr _ => []
    end /\
  polls (snd (retriveChainsAndRun w sql h)) = [sql].
Proof.
  split; [|apply retriveChainsAndRun_polls].
  destruct (oSelectContext w h sql (ClientName w)) as [rows|msg] eqn:Hq.
  - rewrite (retriveChainsAndRun_rows w sql h rows Hq).
    destruct (sendChains_summary (Z.of_nat (List.length rows)) rows
                (h ++ [ESelectContext sql (ClientName w) true;
                       ELogToDB "LOG" "Number of chains to be executed: "]))
      as (Hsent & _).
    rewrite sentChains_app, Hsent. reflexivity.
  - rewrite (retriveChainsAndRun_failed sql h msg Hq). reflexivity.
Qed.

(** X12: the time one poll sleeps.  At or below the threshold it is zero.
    Above it, it is count times the rounded-down delay: never more than the
    poll interval of 60 seconds, less than count milliseconds short of it,
    and zero again once more than 60000 chains are fetched, because the
    delay then rounds down to nothing. *)
Theorem poll_sleep_bounds (sql : string) (h : trace) (headChains : list Chain) :
  let count := Z.of_nat (List.length headChains) in
  let slept := totalSleep (snd (retriveChainsAndRun w sql h)) in
  oSelectContext w h sql (ClientName w) = inl headChains ->
  (count <= 960 -> slept = 0) /\
  (960 < count -> slept = count * (60000 / count) * Millisecond) /\
  (960 < count -> refetchTimeout * Second - count * Millisecond < slept) /\
  (60000 < count -> slept = 0) /\
  0 <= slept <= refetchTimeout * Second.
Proof.
  intros count slept Hrows. subst slept.
  rewrite (retriveChainsAndRun_rows w sql h headChains Hrows).
  destruct (sendChains_summary count headChains
              (h ++ [ESelectContext sql (ClientName w) true;
                     ELogToDB "LOG" "Number of chains to be executed: "]))
    as (_ & Hsleep & _).
  rewrite totalSleep_app. fold count. rewrite Hsleep.
  cbn [totalSleep Z.add]. fold count.
  change maxChainsThreshold with 960.
  change (refetchTimeout * Second) with (60000 * Millisecond).
  assert (Hms : Millisecond = 1000000) by reflexivity.
  destruct (Z.gtb_spec count 960) as [Hgt|Hle].
  - unfold smoothingDelay. change (refetchTimeout * 1000) with 60000.
    rewrite Z.quot_div_nonneg by lia.
    pose proof (Z.mul_div_le 60000 count ltac:(lia)) as Hlow.
    pose proof (Z.mod_pos_bound 60000 count ltac:(lia)) as Hmod.
    pose proof (Z.div_mod 60000 count ltac:(lia)) as Hdm.
    assert (Hq : 0 <= 60000 / count) by (apply Z.div_pos; lia).
    rewrite Hms.
    replace (count * (60000 / count * 1000000))
      with (count * (60000 / count) * 1000000) by ring.
    assert (Hprod : count * (60000 / count) = 60000 - 60000 mod count) by lia.
    split; [lia|]. split; [reflexivity|]. split; [lia|].
    split; [|lia].
    intros Hbig. rewrite Z.div_small by lia. lia.
  - repeat split; intros; try lia.
Qed.

End PollerFacts.

(** ** Further properties of chainWorker *)

Lemma waitEvent_quiet (ev : event) :
  waitEvent ev = true ->
  isStartTransaction ev = false /\ isDeleteChainConfig ev = false.
Proof. destruct ev; cbn; intros H; try discriminate H; split; reflexivity. Qed.

Lemma runEvent_not_delete (ev : event) :
  runEvent ev = true -> isDeleteChainConfig ev = false.
Proof. destruct ev; cbn; congruence. Qed.

Section WorkerFacts.

Variable w : World.

(** How the admission loop ends, and what it leaves. *)
Lemma waitForAdmission_ends (chain : Chain) (fuel : nat) :
  forall h ok evs,
    waitForAdmission w fuel chain h = Some (ok, evs) ->
    forallb waitEvent evs = true /\
    ((ok = true /\
      exists pre,
        evs = pre ++ [ECanProceedChainExecution (ChainExecutionConfigID chain)
                        (MaxInstances chain) true]) \/
     (ok = false /\
      exists pre,
        evs = pre ++ [ESelect (WaitTime w * Second) CtxDone;
                      ELogToDB "ERROR" requestCancelled])).
Proof.
  induction fuel as [|fuel IH]; intros h ok evs Hrun; [discriminate|].
  cbn [waitForAdmission] in Hrun.
  unfold bindF at 1 in Hrun. unfold lift at 1 in Hrun.
  unfold CanProceedChainExecution, call in Hrun.
  destruct (oCanProceedChainExecution w h _ _).
  - inversion Hrun; subst. split; [reflexivity|].
    left. split; [reflexivity|]. exists []. reflexivity.
  - unfold bindF at 1 in Hrun. unfold lift at 1 in Hrun.
    unfold bind, LogToDB, emit, select, call in Hrun. cbn [app] in Hrun.
    destruct (oSelect w _).
    + destruct (waitForAdmission w fuel chain _) as [[ok' evs']|] eqn:Hrec;
        [|discriminate].
      inversion Hrun; subst. apply IH in Hrec.
      destruct Hrec as [Halpha Hend]. split.
      { cbn. exact Halpha. }
      destruct Hend as [[-> [pre ->]]|[-> [pre ->]]]; [left|right];
        (split; [reflexivity|]);
        eexists (_ :: _ :: _ :: pre); reflexivity.
    + unfold bindF, lift, LogToDB, emit, retF in Hrun.
      inversion Hrun; subst. split; [reflexivity|].
      right. split; [reflexivity|]. eexists [_; _]. reflexivity.
Qed.

(** X13: a worker that sees the cancellation while it waits for admission
    returns at once.  The chain it was holding is not run, whether or not it
    is selfDestruct it is not deleted, and the chains still to come are not
    looked at: the trace ends with the cancelled wait. *)
Theorem cancelled_worker_stops (fuel : nat) (chain : Chain)
    (rest : list Chain) (h : trace) (evs1 : list event) :
  waitForAdmission w fuel chain (h ++ [calling]) = Some (false, evs1) ->
  chainWorker w fuel (chain :: rest) h = Some (tt, calling :: evs1) /\
  existsb isStartTransaction (calling :: evs1) = false /\
  existsb isDeleteChainConfig (calling :: evs1) = false /\
  exists pre,
    calling :: evs1 = pre ++ [ESelect (WaitTime w * Second) CtxDone;
                              ELogToDB "ERROR" requestCancelled].
Proof.
  intros Hwait. rewrite chainWorker_cons, Hwait.
  apply waitForAdmission_ends in Hwait.
  destruct Hwait as [Halpha [[Hok _]|[_ [pre ->]]]]; [discriminate|].
  split; [reflexivity|].
  split.
  { cbn [existsb calling isStartTransaction orb].
    apply (forallb_existsb_disjoint waitEvent); [|exact Halpha].
    intros ev Hev. apply waitEvent_quiet. exact Hev. }
  split.
  { cbn [existsb calling isDeleteChainConfig orb].
    apply (forallb_existsb_disjoint waitEvent); [|exact Halpha].
    intros ev Hev. apply waitEvent_quiet. exact Hev. }
  exists (calling :: pre). reflexivity.
Qed.

(** X14: a worker deletes nothing but the configurations of selfDestruct
    chains it was given: every delete in its trace names the configuration of
    a chain on its channel whose SelfDestruct is set. *)
Theorem only_self_destruct_deleted (fuel : nat) (chains : list Chain) :
  forall h evs,
    chainWorker w fuel chains h = Some (tt, evs) ->
    Forall (deleteOf chains) evs.
Proof.
  induction chains as [|chain chains IH]; intros h evs Hrun.
  { inversion Hrun. constructor. }
  rewrite chainWorker_cons in Hrun.
  assert (Hquiet : forall l, forallb waitEvent l = true \/ forallb runEvent l = true ->
                             Forall (deleteOf (chain :: chains)) l).
  { intros l Hl. apply Forall_forall. intros ev Hin.
    destruct Hl as [Hl|Hl]; rewrite forallb_forall in Hl; specialize (Hl ev Hin);
      destruct ev; cbn in Hl; try discriminate; exact I. }
  destruct (waitForAdmission w fuel chain (h ++ [calling]))
    as [[[|] evs1]|] eqn:Hwait; [| |discriminate].
  - apply waitForAdmission_ends in Hwait. destruct Hwait as [Halpha _].
    cbv zeta in Hrun.
    destruct (chainWorker w fuel chains _) as [[u evs']|] eqn:Hrest;
      [|discriminate].
    destruct u. apply IH in Hrest. inversion Hrun; subst. clear Hrun.
    cbn [app]. constructor; [exact I|]. rewrite <- !app_assoc.
    repeat (apply Forall_app; split).
    + apply Hquiet. left. exact Halpha.
    + apply Hquiet. right. apply executeChain_alphabet.
    + destruct (SelfDestruct chain) eqn:Hsd; [|constructor].
      repeat constructor. exists chain. repeat split; [left; reflexivity|exact Hsd].
    + eapply Forall_impl; [|exact Hrest].
      intros ev Hev. destruct ev; try exact I.
      destruct Hev as (c & Hin & Hsd & Hid). exists c.
      repeat split; [right; exact Hin|exact Hsd|exact Hid].
  - apply waitForAdmission_ends in Hwait. destruct Hwait as [Halpha _].
    inversion Hrun; subst. cbn [app]. constructor; [exact I|].
    apply Hquiet. left. exact Halpha.
Qed.

End WorkerFacts.

(** ** Further properties of Run *)




Lemma lockEvent_polls (evs : list event) :
  forallb lockEvent evs = true -> polls evs = [].
Proof.
  induction evs as [|ev evs IH]; [reflexivity|].
  cbn. intros Hall. apply andb_prop in Hall. destruct Hall as [Hev Hall].
  destruct ev; cbn in *; try discriminate; exact (IH Hall).
Qed.





Section EngineFacts.

Variable w : World.






End EngineFacts.

(** ** A worker that is never held back *)

Lemma deletedConfigs_app (a b : list event) :
  deletedConfigs (a ++ b) = deletedConfigs a ++ deletedConfigs b.
Proof.
  induction a as [|ev a IH]; [reflexivity|].
  destruct ev; cbn; rewrite ?IH; reflexivity.
Qed.

Lemma runEvent_deletedConfigs (evs : list event) :
  forallb runEvent evs = true -> deletedConfigs evs = [].
Proof.
  induction evs as [|ev evs IH]; [reflexivity|].
  cbn. intros Hall. apply andb_prop in Hall. destruct Hall as [Hev Hall].
  destruct ev; cbn in *; try discriminate; exact (IH Hall).
Qed.

Lemma Forall_filter_nil (q : event -> bool) (evs : list event) :
  Forall (fun ev => q ev = false) evs -> filter q evs = [].
Proof.
  induction 1 as [|ev evs Hev _ IH]; [reflexivity|].
  cbn. rewrite Hev. exact IH.
Qed.

Section FreeWorker.

Variable w : World.

(** A run starts its transaction once, first of all. *)
Lemma executeChain_starts_once (cfg id : Z) (h : trace) :
  List.length (filter isStartTransaction (snd (executeChain w cfg id h))) = 1%nat.
Proof.
  destruct (oStartTransaction w h) as [msg|] eqn:Htx.
  { rewrite (executeChain_not_started w cfg id h msg Htx). reflexivity. }
  destruct (oGetChainElements w (h ++ opening) id) as [elems|] eqn:Hget.
  - rewrite (executeChain_fetched w cfg id h elems Htx Hget). cbv zeta.
    assert (Hloop : filter isStartTransaction
                      (snd (executeChainElements w cfg id (runStatusID w cfg id h)
                              elems (h ++ header w cfg id h))) = []).
    { apply Forall_filter_nil. apply executeChainElements_Forall.
      - intros e h'. apply Forall_forall. intros ev Hin.
        pose proof (executeChainElement_alphabet w (withConfig cfg e) h') as Ha.
        rewrite forallb_forall in Ha. specialize (Ha ev Hin).
        destruct ev; cbn in Ha; try discriminate; reflexivity.
      - reflexivity.
      - reflexivity.
      - reflexivity. }
    destruct (executeChainElements w cfg id _ elems _) as [b evs].
    cbn [snd] in *. rewrite !filter_app, Hloop.
    destruct b; reflexivity.
  - rewrite (executeChain_not_fetched w cfg id h Htx Hget). reflexivity.
Qed.

(** X17: a worker whose chains may always proceed gets through all it is
    given: it starts exactly one transaction per chain, and when it is done
    it has deleted the configurations of the selfDestruct chains, each once
    and in the order the chains came, and no other. *)
Theorem free_worker_runs_each_chain_once (fuel : nat) (chains : list Chain) :
  (forall h cfg maxInstances,
      oCanProceedChainExecution w h cfg maxInstances = true) ->
  forall h,
  exists evs,
    chainWorker w (S fuel) chains h = Some (tt, evs) /\
    List.length (filter isStartTransaction evs) = List.length chains /\
    deletedConfigs evs =
      map ChainExecutionConfigID (filter SelfDestruct chains).
Proof.
  intros Hfree.
  induction chains as [|chain chains IH]; intros h.
  { exists []. repeat split. }
  rewrite chainWorker_cons.
  rewrite (waitForAdmission_now w fuel chain (h ++ [calling]) (Hfree _ _ _)).
  cbv zeta.
  destruct (IH (h ++ [calling] ++
                [ECanProceedChainExecution (ChainExecutionConfigID chain)
                   (MaxInstances chain) true] ++
                snd (executeChain w (ChainExecutionConfigID chain) (ChainID chain)
                       (h ++ [calling] ++
                        [ECanProceedChainExecution (ChainExecutionConfigID chain)
                           (MaxInstances chain) true])) ++
                (if SelfDestruct chain
                 then [EDeleteChainConfig (ChainExecutionConfigID chain)]
                 else [])))
    as (evs & Hrest & Hstarts & Hdel).
  rewrite Hrest. eexists. split; [reflexivity|].
  pose proof (executeChain_starts_once (ChainExecutionConfigID chain) (ChainID chain)
                (h ++ [calling] ++
                 [ECanProceedChainExecution (ChainExecutionConfigID chain)
                    (MaxInstances chain) true])) as Hone.
  pose proof (runEvent_deletedConfigs _
                (executeChain_alphabet w (ChainExecutionConfigID chain) (ChainID chain)
                   (h ++ [calling] ++
                    [ECanProceedChainExecution (ChainExecutionConfigID chain)
                       (MaxInstances chain) true]))) as Hnone.
  split.
  - rewrite !filter_app, !length_app, Hone, Hstarts.
    destruct (SelfDestruct chain); cbn; lia.
  - rewrite !deletedConfigs_app, Hnone, Hdel. cbn [filter].
    destruct (SelfDestruct chain); reflexivity.
Qed.

End FreeWorker.

(** ** The further properties on concrete runs *)

Lemma codeless_task_logs_zero_witness :
  pgengine.Kind sqlElem = "SQL" /\
  Forall logsZero (snd (executeChainElement sqlFails sqlElem [])) /\
  resultCode sqlFails sqlElem [] = -1.
Proof.
  split; [reflexivity|].
  destruct (codeless_task_logs_zero sqlFails sqlElem [] (or_introl eq_refl))
    as [Hzero Hfail].
  split; [exact Hzero|].
  destruct (Hfail [] 0 EmptyString "syntax error"
                  [EExecuteSQLTask (stamped sqlFails sqlElem []) []]
                  eq_refl eq_refl) as [Hcode _].
  exact Hcode.
Defined.

Lemma logged_duration_nonnegative_witness :
  (forall h evs, oNow scenario h <= oNow scenario (h ++ evs)) /\
  Forall logsDuration (snd (executeChainElement scenario (shellElem false) [])).
Proof.
  assert (Hclock : forall h evs, oNow scenario h <= oNow scenario (h ++ evs)).
  { intros h evs. unfold scenario, testWorld. cbn [oNow].
    rewrite length_app, Nat2Z.inj_add. unfold Millisecond. lia. }
  split; [exact Hclock|].
  exact (logged_duration_nonnegative scenario (shellElem false) [] Hclock).
Defined.

Lemma transaction_closed_once_witness :
  (oStartTransaction scenario [] = None /\
   oStartTransaction startFails [] <> None) /\
  filter isTxEnd (snd (executeChain scenario 7 1 [])) = [EMustRollbackTransaction] /\
  filter isTxEnd (snd (executeChain startFails 7 1 [])) = [].
Proof.
  split; [split; [reflexivity|discriminate]|].
  destruct (transaction_closed_once scenario 7 1 []) as [Hstarted _].
  destruct (transaction_closed_once startFails 7 1 []) as [_ Hrefused].
  split.
  - destruct (Hstarted eq_refl) as (fin & pre & _ & Hone & _).
    rewrite Hone. vm_compute in Hone. symmetry. exact Hone.
  - apply Hrefused. discriminate.
Defined.

Lemma run_status_grammar_witness :
  (oStartTransaction scenario [] = None /\
   oGetChainElements scenario opening 1
     = Some [sqlElem; shellElem false; builtinElem]) /\
  exists k : nat,
    (k = 3%nat /\
     statusLabels (snd (executeChain scenario 7 1 [])) = rounds k ++ ["CHAIN_DONE"] /\
     exists pre, snd (executeChain scenario 7 1 []) = pre ++ [EMustCommitTransaction]) \/
    ((k < 3)%nat /\
     statusLabels (snd (executeChain scenario 7 1 []))
       = rounds k ++ ["STARTED"; "CHAIN_FAILED"] /\
     exists pre, snd (executeChain scenario 7 1 []) = pre ++ [EMustRollbackTransaction]).
Proof.
  split; [split; reflexivity|].
  exact (run_status_grammar scenario 7 1 []
           [sqlElem; shellElem false; builtinElem] eq_refl eq_refl).
Defined.

Lemma elements_entered_in_order_witness :
  (oStartTransaction scenario [] = None /\
   oGetChainElements scenario opening 1
     = Some [sqlElem; shellElem false; builtinElem]) /\
  exists n : nat,
    (n <= 3)%nat /\
    enteredElements (snd (executeChain scenario 7 1 [])) =
      map (withConfig 7) (firstn n [sqlElem; shellElem false; builtinElem]) /\
    ([sqlElem; shellElem false; builtinElem] <> [] -> (0 < n)%nat) /\
    (In EMustCommitTransaction (snd (executeChain scenario 7 1 [])) -> n = 3%nat).
Proof.
  split; [split; reflexivity|].
  exact (elements_entered_in_order scenario 7 1 []
           [sqlElem; shellElem false; builtinElem] eq_refl eq_refl).
Defined.

Lemma clean_or_ignored_chain_commits_witness :
  (oStartTransaction ignoredFailure [] = None /\
   oGetChainElements ignoredFailure opening 1
     = Some [shellElem true; builtinElem] /\
   resultCode ignoredFailure (withConfig 7 (shellElem true))
     (header ignoredFailure 7 1 [] ++
      [EUpdateChainRunStatus (withConfig 7 (shellElem true)) 42 "STARTED"]) = 1 /\
   pgengine.IgnoreError (shellElem true) = true) /\
  statusLabels (snd (executeChain ignoredFailure 7 1 [])) =
    ["STARTED"; "CHAIN_DONE"; "STARTED"; "CHAIN_DONE"; "CHAIN_DONE"] /\
  enteredElements (snd (executeChain ignoredFailure 7 1 [])) =
    [withConfig 7 (shellElem true); withConfig 7 builtinElem].
Proof.
  split; [repeat split; reflexivity|].
  destruct (clean_or_ignored_chain_commits ignoredFailure 7 1 []
              [shellElem true; builtinElem] eq_refl eq_refl)
    as (Hlabels & Hentered & _).
  - intros pre e post evs1 Heq _.
    destruct pre as [|a [|b pre]].
    + injection Heq as <- _. right. reflexivity.
    + injection Heq as _ <- _. left. reflexivity.
    + destruct pre; discriminate Heq.
  - split; [exact Hlabels|exact Hentered].
Defined.

Lemma unresolved_parameters_fail_element_witness :
  (oGetChainParamValues paramsFail
     [EUpdateChainRunStatus (withConfig 7 sqlElem) 42 "STARTED";
      ELogToDB "DEBUG" "Executing task: %s"] (withConfig 7 sqlElem) = None /\
   pgengine.IgnoreError sqlElem = false) /\
  resultCode paramsFail (withConfig 7 sqlElem)
    [EUpdateChainRunStatus (withConfig 7 sqlElem) 42 "STARTED"] = -1 /\
  executeChainElements paramsFail 7 1 42 [sqlElem; builtinElem] [] =
    (false, [EUpdateChainRunStatus (withConfig 7 sqlElem) 42 "STARTED";
             ELogToDB "DEBUG" "Executing task: %s";
             EGetChainParamValues (withConfig 7 sqlElem) false;
             ELogToDB "ERROR" "Chain ID: %d failed";
             EUpdateChainRunStatus (withConfig 7 sqlElem) 42 "CHAIN_FAILED";
             EMustRollbackTransaction]).
Proof.
  split; [split; reflexivity|].
  destruct (unresolved_parameters_fail_element paramsFail 7 1 42 []
              sqlElem [builtinElem] eq_refl) as (_ & Hcode & Hfails & _).
  split; [exact Hcode|exact (Hfails eq_refl)].
Defined.

Lemma disabled_shell_never_runs_witness :
  NoShellTasks shellOff = true /\
  existsb isExecuteShellCommand (snd (executeChain shellOff 7 1 [])) = false.
Proof.
  split; [reflexivity|].
  exact (disabled_shell_never_runs shellOff 7 1 [] eq_refl).
Defined.

Lemma poll_sleep_bounds_witness :
  oSelectContext burst [] sqlSelectChains (ClientName burst)
    = inl (repeat oneShot 961) /\
  totalSleep (snd (retriveChainsAndRun burst sqlSelectChains []))
    = 961 * 62 * Millisecond.
Proof.
  split; [reflexivity|].
  destruct (poll_sleep_bounds burst sqlSelectChains [] (repeat oneShot 961) eq_refl)
    as (_ & Hover & _).
  rewrite Hover; [rewrite repeat_length; reflexivity|].
  rewrite repeat_length. reflexivity.
Defined.

Lemma cancelled_worker_stops_witness :
  match waitForAdmission shutOut 1 oneShot [calling] with
  | Some (false, evs1) =>
      chainWorker shutOut 1 [oneShot; keeper] [] = Some (tt, calling :: evs1) /\
      existsb isStartTransaction (calling :: evs1) = false /\
      existsb isDeleteChainConfig (calling :: evs1) = false
  | _ => False
  end.
Proof.
  destruct (waitForAdmission shutOut 1 oneShot [calling])
    as [[[|] evs1]|] eqn:Hwait; [discriminate Hwait| |discriminate Hwait].
  destruct (cancelled_worker_stops shutOut 1 oneShot [keeper] [] evs1 Hwait)
    as (Hworker & Hstart & Hdelete & _).
  repeat split; assumption.
Defined.

Lemma only_self_destruct_deleted_witness :
  match chainWorker scenario 1 [oneShot; keeper] [] with
  | Some (_, evs) =>
      Forall (deleteOf [oneShot; keeper]) evs /\ deletedConfigs evs = [7]
  | None => False
  end.
Proof.
  destruct (chainWorker scenario 1 [oneShot; keeper] []) as [[[] evs]|] eqn:Hrun;
    [|vm_compute in Hrun; discriminate Hrun].
  split.
  - exact (only_self_destruct_deleted scenario 1 [oneShot; keeper] [] evs Hrun).
  - vm_compute in Hrun. injection Hrun as <-. reflexivity.
Defined.



Lemma free_worker_runs_each_chain_once_witness :
  (forall h cfg maxInstances,
      oCanProceedChainExecution scenario h cfg maxInstances = true) /\
  exists evs,
    chainWorker scenario 1 [oneShot; keeper; oneShot] [] = Some (tt, evs) /\
    List.length (filter isStartTransaction evs) = 3%nat /\
    deletedConfigs evs = [7; 7].
Proof.
  split; [reflexivity|].
  exact (free_worker_runs_each_chain_once scenario 0 [oneShot; keeper; oneShot]
           (fun _ _ _ => eq_refl) []).
Defined.
